(** * Saweria relay: a shallow embedding of [index.js]

    The repository ships two revisions of the same Express relay (the
    serverless one and the stand-alone one that binds a host).  Both expose
    [POST /qris], [GET /status/:donationId] and [GET /balance] and forward
    each call to the donation platform.  The development below embeds the
    JavaScript values the handlers inspect, the effects they perform (one
    outbound [fetch] per call, exceptions, [try]/[catch]) and the two
    revisions of every function, then proves the properties of the relay's
    observable contract.  What is observed of a call is the HTTP reply and
    the list of the calls to [fetch] it made; what the console prints is
    left out, but not the text conversions made to print it, which can
    throw. *)

From Stdlib Require Import String Ascii ZArith List Bool Lia DecimalString Floats.
Import ListNotations.
Open Scope string_scope.
Open Scope Z_scope.
Set Warnings "-register-all".

(** ** JavaScript values

    Only the values that [JSON.parse], [body-parser] and the query-string
    parser can produce occur in the relay, plus [undefined].  A number is
    the double it is in JavaScript; an object is the ordered list of its
    own properties, none of which is callable. *)

Inductive value : Type :=
| VUndefined
| VNull
| VBool (b : bool)
| VNum (x : float)
| VStr (s : string)
| VArr (items : list value)
| VObj (props : list (string * value)).

Definition Obj : Type := list (string * value).

(** ToBoolean: [undefined], [null], [false], [0], [-0], [NaN] and the empty
    string are falsy, everything else (every array and object too) is
    truthy. *)
Definition truthy (v : value) : bool :=
  match v with
  | VUndefined | VNull => false
  | VBool b => b
  | VNum x => negb (is_zero x || is_nan x)
  | VStr s => negb (s =? "")%string
  | VArr _ | VObj _ => true
  end.

Definition nullish (v : value) : bool :=
  match v with
  | VUndefined | VNull => true
  | _ => false
  end.

Definition string_of_Z (n : Z) : string := NilZero.string_of_int (Z.to_int n).

Definition string_of_nat (n : nat) : string := string_of_Z (Z.of_nat n).

Definition float_of_nat (n : nat) : float := of_uint63 (Uint63.of_Z (Z.of_nat n)).

(** The integer a double stands for, when it is one below [2^53]: these
    are the numbers whose text is their decimal numeral. *)
Definition safe_integer (x : float) : option Z :=
  match Prim2SF x with
  | S754_zero _ => Some 0
  | S754_finite s m e =>
      if 0 <=? e then
        let n := Z.pos m * 2 ^ e in
        if n <? 2 ^ 53 then Some (if s then - n else n) else None
      else if Z.pos m mod 2 ^ (- e) =? 0 then
        let n := Z.pos m / 2 ^ (- e) in
        Some (if s then - n else n)
      else None
  | _ => None
  end.

(** [String.prototype.includes]. *)
Fixpoint includes (s needle : string) : bool :=
  if String.prefix needle s then true
  else match s with
       | EmptyString => false
       | String _ rest => includes rest needle
       end.

(** *** Own properties *)

Fixpoint lookup (k : string) (o : Obj) : option value :=
  match o with
  | [] => None
  | (k', v) :: rest => if (k' =? k)%string then Some v else lookup k rest
  end.

(** Assignment of a property: an existing key keeps its position and takes
    the new value, a new key goes last. *)
Fixpoint assign (k : string) (v : value) (o : Obj) : Obj :=
  match o with
  | [] => [(k, v)]
  | (k', v') :: rest =>
      if (k' =? k)%string then (k', v) :: rest else (k', v') :: assign k v rest
  end.

Definition chars (s : string) : list value :=
  map (fun c => VStr (String c EmptyString)) (list_ascii_of_string s).

Definition indexed (l : list value) : Obj :=
  combine (map string_of_nat (seq 0 (length l))) l.

(** The own enumerable properties copied by a spread [{...v}]. *)
Definition spread (v : value) : Obj :=
  match v with
  | VObj props => props
  | VArr items => indexed items
  | VStr s => indexed (chars s)
  | _ => []
  end.

(** The own properties seen by a property read.  The relay only reads the
    keys [data], [qr_string], [success], [amount], [userId], [token] and
    [donationId], none of which is inherited from a prototype. *)
Definition own (v : value) : Obj :=
  match v with
  | VObj props => props
  | VArr items =>
      (indexed items ++ [("length", VNum (float_of_nat (length items)))])%list
  | VStr s =>
      (indexed (chars s) ++ [("length", VNum (float_of_nat (String.length s)))])%list
  | _ => []
  end.

(** ** Completions: a value or a thrown error, of which only [message] is
    ever read. *)

Inductive completion (A : Type) : Type :=
| Normal (a : A)
| Throw (message : string).
Arguments Normal {A} a.
Arguments Throw {A} message.

(** The message of the engine's TypeError for a read on [null] or
    [undefined]. *)
Definition TypeError_read (v : value) (k : string) : string :=
  "Cannot read properties of "
  ++ (match v with VNull => "null" | _ => "undefined" end)
  ++ " (reading '" ++ k ++ "')".

(** The message of the engine's TypeError for an object that has no text. *)
Definition TypeError_primitive : string :=
  "Cannot convert object to primitive value".

(** [v.k] *)
Definition get (v : value) (k : string) : completion value :=
  if nullish v then Throw (TypeError_read v k)
  else Normal (match lookup k (own v) with Some x => x | None => VUndefined end).

(** [v?.k] *)
Definition get_opt (v : value) (k : string) : completion value :=
  if nullish v then Normal VUndefined else get v k.

(** [o.k] for an object that is known to exist ([req.query]). *)
Definition field (o : Obj) (k : string) : value :=
  match lookup k o with Some x => x | None => VUndefined end.

(** [req.params.k]: the router binds every parameter to a string. *)
Fixpoint param (ps : list (string * string)) (k : string) : value :=
  match ps with
  | [] => VUndefined
  | (k', s) :: rest => if (k' =? k)%string then VStr s else param rest k
  end.

(** [const { k } = v]: destructuring fails on [null] and [undefined]. *)
Definition destructure (v : value) (k : string) : completion value :=
  if nullish v
  then Throw ("Cannot destructure property '" ++ k ++ "' of 'req.body' as it is "
              ++ (match v with VNull => "null" | _ => "undefined" end) ++ ".")
  else Normal (match lookup k (own v) with Some x => x | None => VUndefined end).

(** ** The outside world

    A call to [fetch] is described by what it is given: the URL, and the
    method, the header table and the body of its second argument.  The
    platform's answer carries the status line, the [content-type] header
    and the body, whose reading may itself fail.  [upstream] is everything
    between the call to [fetch] and its settlement: a reply, or the
    rejection of the promise with its message, be it raised by the client
    library before anything is sent or by the network.  The JSON codec,
    the text of the numbers that are not plain integers, the QR encoder
    and the clock belong to the runtime and to the [qrcode] package: with
    the network they are the parameters of the embedding. *)

Record Request : Type := {
  url : string;
  method : string;
  headers : list (string * value);
  payload : option string
}.

Record Response : Type := {
  status : Z;
  content_type : option string;
  stream : completion string
}.

Record QROptions : Type := {
  errorCorrectionLevel : string;
  type : string;
  width : Z
}.

Record Env : Type := {
  upstream : Request -> completion Response;
  JSON_parse : string -> completion value;
  JSON_stringify : value -> string;
  Number_toString : float -> string;
  QRCode_toDataURL : value -> QROptions -> completion string;
  Date_toISOString : string
}.

(** *** Text conversion *)

(** Number::toString: the decimal numeral for an integer below [2^53], the
    names of the infinities and of NaN, and the runtime's shortest
    round-trip text for every other number. *)
Definition number_text (E : Env) (x : float) : string :=
  match safe_integer x with
  | Some n => string_of_Z n
  | None =>
      match classify x with
      | PInf => "Infinity"
      | NInf => "-Infinity"
      | NaN => "NaN"
      | _ => Number_toString E x
      end
  end.

(** ToString, as applied by template literals.  An object takes its text
    from [Object.prototype.toString] unless a property of its own hides
    that method: no own property is callable, [valueOf] gives the object
    back, and the conversion throws.  An array joins the texts of its
    items, [null] and [undefined] counting as empty. *)
Fixpoint ToString (E : Env) (v : value) : completion string :=
  match v with
  | VUndefined => Normal "undefined"
  | VNull => Normal "null"
  | VBool true => Normal "true"
  | VBool false => Normal "false"
  | VNum x => Normal (number_text E x)
  | VStr s => Normal s
  | VArr items =>
      (fix join (l : list value) : completion string :=
         match l with
         | [] => Normal ""
         | x :: rest =>
             match (if nullish x then Normal "" else ToString E x) with
             | Throw message => Throw message
             | Normal here =>
                 match rest with
                 | [] => Normal here
                 | _ :: _ =>
                     match join rest with
                     | Throw message => Throw message
                     | Normal others => Normal (here ++ "," ++ others)
                     end
                 end
             end
         end) items
  | VObj props =>
      match lookup "toString" props with
      | Some _ => Throw TypeError_primitive
      | None => Normal "[object Object]"
      end
  end.

(** The value has a text. *)
Definition printable (E : Env) (v : value) : bool :=
  match ToString E v with
  | Normal _ => true
  | Throw _ => false
  end.

(** ** Effects: the calls to [fetch] made so far, and exceptions *)

Definition Trace : Type := list Request.

Definition M (A : Type) : Type := Trace -> completion A * Trace.

Definition ret {A} (a : A) : M A := fun tr => (Normal a, tr).

Definition throw {A} (message : string) : M A := fun tr => (Throw message, tr).

Definition bind {A B} (m : M A) (k : A -> M B) : M B :=
  fun tr =>
    match m tr with
    | (Normal a, tr') => k a tr'
    | (Throw message, tr') => (Throw message, tr')
    end.

Definition try_catch {A} (m : M A) (handler : string -> M A) : M A :=
  fun tr =>
    match m tr with
    | (Normal a, tr') => (Normal a, tr')
    | (Throw message, tr') => handler message tr'
    end.

Definition lift {A} (c : completion A) : M A := fun tr => (c, tr).

Declare Scope js_scope.
Delimit Scope js_scope with js.
Notation "x <- m ;; k" := (bind m (fun x => k))
  (at level 100, m at next level, right associativity) : js_scope.
Open Scope js_scope.

(** A handler run starts with no call made. *)
Definition run {A} (m : M A) : completion A * Trace := m [].

Section Runtime.
Variable E : Env.

(** [await fetch(url, {method, headers, body})] *)
Definition fetch (u : string) (m : string) (h : list (string * value))
           (b : option string) : M Response :=
  fun tr =>
    let rq := {| url := u; method := m; headers := h; payload := b |} in
    (upstream E rq, (tr ++ [rq])%list).

(** [await response.text()] *)
Definition text (r : Response) : M string := lift (stream r).

(** [await response.json()] *)
Definition json (r : Response) : M value :=
  lift (match stream r with
        | Normal t => JSON_parse E t
        | Throw message => Throw message
        end).

(** A template literal handed to the console: its holes are converted to
    text, left to right, and the text is printed. *)
Fixpoint console_log (holes : list value) : M unit :=
  match holes with
  | [] => ret tt
  | v :: rest => _ <- lift (ToString E v) ;; console_log rest
  end.
End Runtime.

(** ** What Express hands to a route, and what the route sends back *)

Record Req : Type := {
  body : value;
  params : list (string * string);
  query : Obj
}.

Record Reply : Type := {
  code : Z;
  sent : value
}.

(** [res.status(c).json(v)] *)
Definition respond (c : Z) (v : value) : M Reply :=
  ret {| code := c; sent := v |}.

(** The body posted with every donation. *)
Definition donation (amount : value) : value :=
  VObj [("agree", VBool true);
        ("notUnderage", VBool true);
        ("message", VStr "Donation via API");
        ("amount", amount);
        ("payment_type", VStr "qris");
        ("vote", VStr "");
        ("currency", VStr "IDR");
        ("customer_info",
          VObj [("first_name", VStr "Anonymous");
                ("email", VStr "no-reply@donation.my.id");
                ("phone", VStr "")])].

Definition qr_options : QROptions :=
  {| errorCorrectionLevel := "H"; type := "image/png"; width := 300 |}.

(** ** First revision (serverless deployment) *)

Module V1.
Section Client.
Variable E : Env.

Definition browser_headers : list (string * value) :=
  [("Host", VStr "backend.saweria.co");
   ("Accept", VStr "*/*");
   ("Sec-Fetch-Site", VStr "same-site");
   ("Origin", VStr "https://saweria.co");
   ("Sec-Fetch-Mode", VStr "cors");
   ("User-Agent",
    VStr "Mozilla/5.0 (iPhone; CPU iPhone OS 18_2 like Mac OS X) AppleWebKit/605.1.15 (KHTML, like Gecko) Version/18.2 Mobile/15E148 Safari/604.1");
   ("Referer", VStr "https://saweria.co/");
   ("Sec-Fetch-Dest", VStr "empty");
   ("Accept-Language", VStr "id-ID,id;q=0.9");
   ("Priority", VStr "u=3, i");
   ("Connection", VStr "keep-alive")].

(** The URL is built before the [try]: a [userId] without a text makes the
    function throw. *)
Definition generateQRIS (amount userId : value) : M value :=
  id <- lift (ToString E userId) ;;
  let API_URL_QRIS := "https://backend.saweria.co/donations/" ++ id in
  try_catch
    (response <- fetch E API_URL_QRIS "POST"
                   (browser_headers ++ [("Content-Type", VStr "application/json")])%list
                   (Some (JSON_stringify E (donation amount))) ;;
     result <- json E response ;;
     data <- lift (get result "data") ;;
     qr <- lift (get_opt data "qr_string") ;;
     if truthy qr then
       data1 <- lift (get result "data") ;;
       qr_string <- lift (get data1 "qr_string") ;;
       qrImageData <- lift (QRCode_toDataURL E qr_string qr_options) ;;
       data2 <- lift (get result "data") ;;
       ret (VObj [("success", VBool true);
                  ("data", VObj (assign "qr_image" (VStr qrImageData) (spread data2)))])
     else
       throw "Failed to generate QRIS: No QR string in response")
    (fun message =>
       ret (VObj [("success", VBool false); ("error", VStr message)])).

Definition checkPaymentStatus (donationId : value) : M value :=
  id <- lift (ToString E donationId) ;;
  let API_URL_CHECK_STATUS := "https://backend.saweria.co/donations/qris/" ++ id in
  try_catch
    (response <- fetch E API_URL_CHECK_STATUS "GET"
                   (browser_headers ++ [("Content-Type", VStr "application/json")])%list
                   None ;;
     result <- json E response ;;
     data <- lift (get result "data") ;;
     if truthy data then
       data1 <- lift (get result "data") ;;
       qr <- lift (get data1 "qr_string") ;;
       data2 <- lift (get result "data") ;;
       ret (VObj [("success", VBool true);
                  ("status", VStr (if truthy qr then "PENDING" else "PAID"));
                  ("data", data2)])
     else
       throw "Invalid response structure")
    (fun message =>
       ret (VObj [("success", VBool false); ("error", VStr message)])).

(** The token goes into the header table as it is: its conversion to text
    is the client library's, after [fetch] is called. *)
Definition checkAccountBalance (token : value) : M value :=
  let API_URL_BALANCE := "https://backend.saweria.co/donations/balance" in
  try_catch
    (response <- fetch E API_URL_BALANCE "GET"
                   (browser_headers ++ [("Authorization", token)])%list
                   None ;;
     result <- json E response ;;
     data <- lift (get result "data") ;;
     if truthy data then
       data1 <- lift (get result "data") ;;
       ret (VObj [("success", VBool true); ("balance", data1)])
     else
       throw "Failed to fetch balance")
    (fun message =>
       ret (VObj [("success", VBool false); ("error", VStr message)])).

End Client.
End V1.

(** ** Second revision (stand-alone server) *)

Module V2.
Section Client.
Variable E : Env.

(** The URL is built before the [try]; the first thing inside it is the
    console line that prints [userId] and [amount]. *)
Definition generateQRIS (amount userId : value) : M value :=
  id <- lift (ToString E userId) ;;
  let API_URL_QRIS := "https://backend.saweria.co/donations/" ++ id in
  try_catch
    (_ <- console_log E [VStr (Date_toISOString E); userId; amount] ;;
     response <- fetch E API_URL_QRIS "POST"
                   [("Accept", VStr "application/json, text/plain, */*");
                    ("Accept-Language", VStr "id-ID,id;q=0.9,en;q=0.8");
                    ("Content-Type", VStr "application/json");
                    ("Origin", VStr "https://saweria.co");
                    ("Referer", VStr "https://saweria.co/");
                    ("User-Agent",
                     VStr "Mozilla/5.0 (Windows NT 10.0; Win64; x64) AppleWebKit/537.36 (KHTML, like Gecko) Chrome/120.0.0.0 Safari/537.36")]
                   (Some (JSON_stringify E (donation amount))) ;;
     let contentType := content_type response in
     if match contentType with
        | None => true
        | Some ct => (ct =? "")%string || negb (includes ct "application/json")
        end
     then
       textResponse <- text response ;;
       if includes textResponse "cloudflare" || includes textResponse "cf-ray"
       then throw "Cloudflare protection detected. Try using VPS with Indonesian IP or wait a few minutes."
       else if includes textResponse "<!DOCTYPE"
       then throw "Saweria returned HTML page. User ID might be invalid."
       else throw ("API returned non-JSON response: " ++ string_of_Z (status response))
     else
       result <- json E response ;;
       data <- lift (get result "data") ;;
       qr <- lift (get_opt data "qr_string") ;;
       if truthy qr then
         data1 <- lift (get result "data") ;;
         qr_string <- lift (get data1 "qr_string") ;;
         qrImageData <- lift (QRCode_toDataURL E qr_string qr_options) ;;
         data2 <- lift (get result "data") ;;
         ret (VObj [("success", VBool true);
                    ("data", VObj (assign "qr_image" (VStr qrImageData) (spread data2)))])
       else
         throw "No QR string in response")
    (fun message =>
       ret (VObj [("success", VBool false);
                  ("error", VStr message);
                  ("timestamp", VStr (Date_toISOString E))])).

Definition checkPaymentStatus (donationId : value) : M value :=
  id <- lift (ToString E donationId) ;;
  let API_URL_CHECK_STATUS := "https://backend.saweria.co/donations/qris/" ++ id in
  try_catch
    (response <- fetch E API_URL_CHECK_STATUS "GET"
                   [("Accept", VStr "application/json");
                    ("Content-Type", VStr "application/json");
                    ("Origin", VStr "https://saweria.co");
                    ("Referer", VStr "https://saweria.co/");
                    ("User-Agent",
                     VStr "Mozilla/5.0 (Windows NT 10.0; Win64; x64) AppleWebKit/537.36")]
                   None ;;
     result <- json E response ;;
     data <- lift (get result "data") ;;
     if truthy data then
       data1 <- lift (get result "data") ;;
       qr <- lift (get data1 "qr_string") ;;
       data2 <- lift (get result "data") ;;
       ret (VObj [("success", VBool true);
                  ("status", VStr (if truthy qr then "PENDING" else "PAID"));
                  ("data", data2)])
     else
       throw "Invalid response structure")
    (fun message =>
       ret (VObj [("success", VBool false); ("error", VStr message)])).

(** The header table is built inside the [try], before [fetch] is called:
    a token without a text is caught there. *)
Definition checkAccountBalance (token : value) : M value :=
  let API_URL_BALANCE := "https://backend.saweria.co/donations/balance" in
  try_catch
    (bearer <- lift (ToString E token) ;;
     response <- fetch E API_URL_BALANCE "GET"
                   [("Accept", VStr "application/json");
                    ("Origin", VStr "https://saweria.co");
                    ("Referer", VStr "https://saweria.co/");
                    ("User-Agent",
                     VStr "Mozilla/5.0 (Windows NT 10.0; Win64; x64) AppleWebKit/537.36");
                    ("Authorization", VStr ("Bearer " ++ bearer))]
                   None ;;
     result <- json E response ;;
     data <- lift (get result "data") ;;
     if truthy data then
       data1 <- lift (get result "data") ;;
       ret (VObj [("success", VBool true); ("balance", data1)])
     else
       throw "Failed to fetch balance")
    (fun message =>
       ret (VObj [("success", VBool false); ("error", VStr message)])).

End Client.
End V2.

(** ** The routes

    The three routes read the same in both revisions; each calls the client
    functions of its own revision.  A route that throws sends no answer. *)

Inductive revision : Type := Serverless | Standalone.

Section Routes.
Variable rev : revision.
Variable E : Env.

Definition generateQRIS : value -> value -> M value :=
  match rev with
  | Serverless => V1.generateQRIS E
  | Standalone => V2.generateQRIS E
  end.

Definition checkPaymentStatus : value -> M value :=
  match rev with
  | Serverless => V1.checkPaymentStatus E
  | Standalone => V2.checkPaymentStatus E
  end.

Definition checkAccountBalance : value -> M value :=
  match rev with
  | Serverless => V1.checkAccountBalance E
  | Standalone => V2.checkAccountBalance E
  end.

(** [app.post("/qris", ...)] *)
Definition post_qris (req : Req) : M Reply :=
  amount <- lift (destructure (body req) "amount") ;;
  userId <- lift (destructure (body req) "userId") ;;
  if negb (truthy amount) || negb (truthy userId) then
    respond 400 (VObj [("success", VBool false);
                       ("error", VStr "Amount and userId are required")])
  else
    result <- generateQRIS amount userId ;;
    success <- lift (get result "success") ;;
    respond (if truthy success then 200 else 400) result.

(** [app.get("/status/:donationId", ...)] *)
Definition get_status (req : Req) : M Reply :=
  let donationId := param (params req) "donationId" in
  result <- checkPaymentStatus donationId ;;
  success <- lift (get result "success") ;;
  respond (if truthy success then 200 else 400) result.

(** [app.get("/balance", ...)] *)
Definition get_balance (req : Req) : M Reply :=
  let token := field (query req) "token" in
  if negb (truthy token) then
    respond 400 (VObj [("success", VBool false);
                       ("error", VStr "Token is required")])
  else
    result <- checkAccountBalance token ;;
    success <- lift (get result "success") ;;
    respond (if truthy success then 200 else 400) result.

End Routes.

Inductive endpoint : Type := PostQris | GetStatus | GetBalance.

Definition handle (rev : revision) (ep : endpoint) (E : Env) (req : Req) : M Reply :=
  match ep with
  | PostQris => post_qris rev E req
  | GetStatus => get_status rev E req
  | GetBalance => get_balance rev E req
  end.

(** ** A sample platform, used to run the routes on concrete requests *)

Definition dq : string := String "034" EmptyString.

Definition html_text : string := "<!DOCTYPE html><html><body>Forbidden</body></html>".

Definition challenge_text : string :=
  "<html><head><title>Just a moment...</title></head><body>cloudflare cf-ray: 8a1</body></html>".

Fixpoint escape (s : string) : string :=
  match s with
  | EmptyString => EmptyString
  | String c rest =>
      if (c =? "034")%char then String "\" (String c (escape rest))
      else if (c =? "\")%char then String "\" (String c (escape rest))
      else String c (escape rest)
  end.

Definition quoted (s : string) : string := dq ++ escape s ++ dq.

(** The texts the sample runtime knows for numbers that are not plain
    integers. *)
Definition sample_Number_toString (x : float) : string :=
  if (x =? 0.5)%float then "0.5"
  else if (x =? -0.5)%float then "-0.5"
  else if (x =? 1e21)%float then "1e+21"
  else if (x =? 1.5)%float then "1.5"
  else "2.5".

Definition sample_number_text (x : float) : string :=
  match safe_integer x with
  | Some n => string_of_Z n
  | None => sample_Number_toString x
  end.

(** A serializer for the sample platform: members whose value is
    [undefined] are dropped, [undefined] array items become [null]. *)
Fixpoint sample_stringify (v : value) : string :=
  match v with
  | VUndefined | VNull => "null"
  | VBool true => "true"
  | VBool false => "false"
  | VNum x => sample_number_text x
  | VStr s => quoted s
  | VArr items =>
      "[" ++ String.concat "," (map sample_stringify items) ++ "]"
  | VObj props =>
      "{" ++ String.concat ","
               ((fix members (l : list (string * value)) : list string :=
                   match l with
                   | [] => []
                   | (k, x) :: rest =>
                       match x with
                       | VUndefined => members rest
                       | _ => (quoted k ++ ":" ++ sample_stringify x) :: members rest
                       end
                   end) props)
          ++ "}"
  end.

Definition sample_record : value :=
  VObj [("id", VStr "d1"); ("qr_string", VStr "00020101");
        ("amount", VNum 10000); ("currency", VStr "IDR")].

Definition sample_text : string := sample_stringify (VObj [("data", sample_record)]).

Definition null_data_text : string := sample_stringify (VObj [("data", VNull)]).

(** The parser of the sample platform knows the two JSON bodies above and
    rejects every other text the way the engine rejects markup. *)
Definition sample_parse (t : string) : completion value :=
  if (t =? sample_text)%string then Normal (VObj [("data", sample_record)])
  else if (t =? null_data_text)%string then Normal (VObj [("data", VNull)])
  else Throw "Unexpected token < in JSON at position 0".

Definition sample_env (answer : Request -> completion Response) : Env :=
  {| upstream := answer;
     JSON_parse := sample_parse;
     JSON_stringify := sample_stringify;
     Number_toString := sample_Number_toString;
     QRCode_toDataURL := fun v _ =>
       match v with
       | VStr s =>
           if (s =? "")%string then Throw "No input text"
           else Normal ("data:image/png;base64," ++ s)
       | _ => Throw "No input text"
       end;
     Date_toISOString := "2025-01-15T10:30:00.000Z" |}.

Definition answers (st : Z) (ct : option string) (t : string) : Request -> completion Response :=
  fun _ => Normal {| status := st; content_type := ct; stream := Normal t |}.

(** * The vocabulary of the statements *)

(** ** Envelopes and request bodies *)

Definition failure (message : string) : value :=
  VObj [("success", VBool false); ("error", VStr message)].

(** The key is not among the own properties of the parsed body. *)
Definition missing (b : value) (k : string) : Prop :=
  nullish b = false /\ lookup k (own b) = None.

(** ** What a client call can return

    Each client function makes its single outbound call and then returns an
    envelope; the relations below list, case by case, where the envelope
    comes from. *)

Definition cloudflare_message : string :=
  "Cloudflare protection detected. Try using VPS with Indonesian IP or wait a few minutes.".

Definition html_message : string :=
  "Saweria returned HTML page. User ID might be invalid.".

Definition non_json_message (st : Z) : string :=
  "API returned non-JSON response: " ++ string_of_Z st.

Definition no_qr_message (rev : revision) : string :=
  match rev with
  | Serverless => "Failed to generate QRIS: No QR string in response"
  | Standalone => "No QR string in response"
  end.

(** Only the second revision looks at the content type, and only in
    [generateQRIS]. *)
Definition classified (rev : revision) (rsp : Response) : bool :=
  match rev with
  | Serverless => false
  | Standalone =>
      match content_type rsp with
      | None => true
      | Some ct => (ct =? "")%string || negb (includes ct "application/json")
      end
  end.

Definition qris_failure (rev : revision) (E : Env) (message : string) : value :=
  match rev with
  | Serverless => VObj [("success", VBool false); ("error", VStr message)]
  | Standalone => VObj [("success", VBool false); ("error", VStr message);
                        ("timestamp", VStr (Date_toISOString E))]
  end.

Inductive qris_error (rev : revision) (E : Env) (rq : Request) : string -> Prop :=
| qris_unreachable m :
    upstream E rq = Throw m -> qris_error rev E rq m
| qris_unreadable rsp m :
    upstream E rq = Normal rsp -> stream rsp = Throw m -> qris_error rev E rq m
| qris_cloudflare rsp t :
    upstream E rq = Normal rsp -> classified rev rsp = true -> stream rsp = Normal t ->
    includes t "cloudflare" || includes t "cf-ray" = true ->
    qris_error rev E rq cloudflare_message
| qris_html rsp t :
    upstream E rq = Normal rsp -> classified rev rsp = true -> stream rsp = Normal t ->
    includes t "cloudflare" || includes t "cf-ray" = false ->
    includes t "<!DOCTYPE" = true ->
    qris_error rev E rq html_message
| qris_non_json rsp t :
    upstream E rq = Normal rsp -> classified rev rsp = true -> stream rsp = Normal t ->
    includes t "cloudflare" || includes t "cf-ray" = false ->
    includes t "<!DOCTYPE" = false ->
    qris_error rev E rq (non_json_message (status rsp))
| qris_unparsable rsp t m :
    upstream E rq = Normal rsp -> classified rev rsp = false -> stream rsp = Normal t ->
    JSON_parse E t = Throw m -> qris_error rev E rq m
| qris_no_result rsp t result m :
    upstream E rq = Normal rsp -> classified rev rsp = false -> stream rsp = Normal t ->
    JSON_parse E t = Normal result -> get result "data" = Throw m ->
    qris_error rev E rq m
| qris_no_qr_string rsp t result record q :
    upstream E rq = Normal rsp -> classified rev rsp = false -> stream rsp = Normal t ->
    JSON_parse E t = Normal result -> get result "data" = Normal record ->
    get_opt record "qr_string" = Normal q -> truthy q = false ->
    qris_error rev E rq (no_qr_message rev)
| qris_not_encoded rsp t result record q m :
    upstream E rq = Normal rsp -> classified rev rsp = false -> stream rsp = Normal t ->
    JSON_parse E t = Normal result -> get result "data" = Normal record ->
    get record "qr_string" = Normal q -> truthy q = true ->
    QRCode_toDataURL E q qr_options = Throw m ->
    qris_error rev E rq m.

Inductive qris_result (rev : revision) (E : Env) (rq : Request) : value -> Prop :=
| qris_created rsp t result record q img :
    upstream E rq = Normal rsp -> classified rev rsp = false -> stream rsp = Normal t ->
    JSON_parse E t = Normal result -> get result "data" = Normal record ->
    get record "qr_string" = Normal q -> truthy q = true ->
    QRCode_toDataURL E q qr_options = Normal img ->
    qris_result rev E rq
      (VObj [("success", VBool true);
             ("data", VObj (assign "qr_image" (VStr img) (spread record)))])
| qris_failed m :
    qris_error rev E rq m -> qris_result rev E rq (qris_failure rev E m).

(** [checkPaymentStatus] and [checkAccountBalance] fail in the same five
    ways; [shape] is the message thrown when [data] is falsy. *)
Inductive data_error (E : Env) (rq : Request) (shape : string) : string -> Prop :=
| data_unreachable m :
    upstream E rq = Throw m -> data_error E rq shape m
| data_unreadable rsp m :
    upstream E rq = Normal rsp -> stream rsp = Throw m -> data_error E rq shape m
| data_unparsable rsp t m :
    upstream E rq = Normal rsp -> stream rsp = Normal t ->
    JSON_parse E t = Throw m -> data_error E rq shape m
| data_no_result rsp t result m :
    upstream E rq = Normal rsp -> stream rsp = Normal t ->
    JSON_parse E t = Normal result -> get result "data" = Throw m ->
    data_error E rq shape m
| data_falsy rsp t result record :
    upstream E rq = Normal rsp -> stream rsp = Normal t ->
    JSON_parse E t = Normal result -> get result "data" = Normal record ->
    truthy record = false ->
    data_error E rq shape shape.

(** The status derived from [data.qr_string]. *)
Definition payment_status (qr_string : value) : string :=
  if truthy qr_string then "PENDING" else "PAID".

Inductive status_result (E : Env) (rq : Request) : value -> Prop :=
| status_known rsp t result record q :
    upstream E rq = Normal rsp -> stream rsp = Normal t ->
    JSON_parse E t = Normal result -> get result "data" = Normal record ->
    truthy record = true -> get record "qr_string" = Normal q ->
    status_result E rq
      (VObj [("success", VBool true);
             ("status", VStr (payment_status q));
             ("data", record)])
| status_failed m :
    data_error E rq "Invalid response structure" m ->
    status_result E rq (failure m).

Inductive balance_result (E : Env) (rq : Request) : value -> Prop :=
| balance_known rsp t result record :
    upstream E rq = Normal rsp -> stream rsp = Normal t ->
    JSON_parse E t = Normal result -> get result "data" = Normal record ->
    truthy record = true ->
    balance_result E rq (VObj [("success", VBool true); ("balance", record)])
| balance_failed m :
    data_error E rq "Failed to fetch balance" m ->
    balance_result E rq (failure m).

(** ** Headers of the balance call *)

(** The value of a header of an outbound call. *)
Fixpoint header (name : string) (h : list (string * value)) : option value :=
  match h with
  | [] => None
  | (n, v) :: rest => if (n =? name)%string then Some v else header name rest
  end.

(** What the balance call carries for a token whose text is [bearer]: the
    token itself in the first revision, the text behind the scheme in the
    second. *)
Definition authorization (rev : revision) (token : value) (bearer : string) : value :=
  match rev with
  | Serverless => token
  | Standalone => VStr ("Bearer " ++ bearer)
  end.

(** ** What the routes answer *)

(** The status code agrees with the [success] flag of the envelope. *)
Definition consistent (r : Reply) : Prop :=
  (code r = 200 /\ get (sent r) "success" = Normal (VBool true))
  \/ (code r = 400 /\ get (sent r) "success" = Normal (VBool false)).

(** What is assumed of the transport, the JSON codec and the QR encoder:
    the errors they raise carry a message, and an encoded image is a PNG
    data URL. *)
Record dependable (E : Env) : Prop := {
  upstream_message : forall rq m, upstream E rq = Throw m -> m <> "";
  stream_message : forall rq rsp m,
      upstream E rq = Normal rsp -> stream rsp = Throw m -> m <> "";
  parse_message : forall t m, JSON_parse E t = Throw m -> m <> "";
  encoder_message : forall v o m, QRCode_toDataURL E v o = Throw m -> m <> "";
  encoder_data_url : forall v o img,
      QRCode_toDataURL E v o = Normal img ->
      String.prefix "data:image/png;base64," img = true
}.

(** A 200 carrying the image next to the [qr_string] of the record that
    the outbound call [rq] brought back. *)
Definition image_reply (E : Env) (rq : Request) (r : Reply) : Prop :=
  code r = 200
  /\ get (sent r) "success" = Normal (VBool true)
  /\ exists rsp t result record out img,
       upstream E rq = Normal rsp /\ stream rsp = Normal t
       /\ JSON_parse E t = Normal result
       /\ get result "data" = Normal record
       /\ get (sent r) "data" = Normal out
       /\ get out "qr_image" = Normal (VStr img)
       /\ String.prefix "data:image/png;base64," img = true
       /\ img <> ""
       /\ get out "qr_string" = get record "qr_string".

(** A 400 carrying a non-empty error and no data. *)
Definition error_reply (r : Reply) : Prop :=
  code r = 400
  /\ get (sent r) "success" = Normal (VBool false)
  /\ get (sent r) "data" = Normal VUndefined
  /\ exists m, get (sent r) "error" = Normal (VStr m) /\ m <> "".

(** The parsed reply has no truthy [data.qr_string]. *)
Definition lacks_qr_string (result : value) : Prop :=
  forall record q,
    get result "data" = Normal record -> get_opt record "qr_string" = Normal q ->
    truthy q = false.

(** The messages reported for such a reply. *)
Definition shape_message (rev : revision) (rsp : Response) (result : value)
           (m : string) : Prop :=
  m <> ""
  /\ (classified rev rsp = false ->
      m = no_qr_message rev \/ m = TypeError_read result "data")
  /\ (classified rev rsp = true ->
      m = cloudflare_message \/ m = html_message
      \/ m = non_json_message (status rsp)).

(** ** A platform whose records carry an image of their own *)

(** A record that already carries a [qr_image]. *)
Definition tagged_record : value :=
  VObj [("id", VStr "d2"); ("qr_image", VStr "from-upstream");
        ("qr_string", VStr "00020101")].

Definition tagged_text : string := sample_stringify (VObj [("data", tagged_record)]).

Definition tagged_env : Env :=
  {| upstream := answers 200 (Some "application/json") tagged_text;
     JSON_parse := fun t =>
       if (t =? tagged_text)%string then Normal (VObj [("data", tagged_record)])
       else sample_parse t;
     JSON_stringify := sample_stringify;
     Number_toString := sample_Number_toString;
     QRCode_toDataURL := fun v _ =>
       match v with
       | VStr s => Normal ("data:image/png;base64," ++ s)
       | _ => Throw "No input text"
       end;
     Date_toISOString := "2025-01-15T10:30:00.000Z" |}.

(** * The rest of the application

    The JSON body parser runs first: a body it refuses never reaches the
    code below, the framework answers with the parser's error.  Then every
    request goes through the middleware that sets the cross-origin headers
    and answers preflights, and then to the router.  Next to the three
    routes the application serves a health check at the root. *)

(** ** Process configuration *)

Record Process : Type := {
  PORT : option string;
  NODE_ENV : option string
}.

(** [process.env.X || fallback]: an unset or empty variable gives the
    fallback, any other value is kept as the string it is. *)
Definition env_or (x : option string) (fallback : value) : value :=
  match x with
  | Some s => if (s =? "")%string then fallback else VStr s
  | None => fallback
  end.

Definition port (P : Process) : value := env_or (PORT P) (VNum 3000).

Definition host : string := "0.0.0.0".

(** ** The health check *)

Definition endpoints : value :=
  VObj [("POST /qris", VStr "Generate QRIS payment");
        ("GET /status/:donationId", VStr "Check payment status");
        ("GET /balance", VStr "Check account balance")].

(** The three command lines, around the text [p] of the port. *)
Definition usage_examples (p : string) : value :=
  VObj [("qris",
         VStr ("curl -X POST http://localhost:" ++ p
               ++ "/qris -H " ++ dq ++ "Content-Type: application/json" ++ dq
               ++ " -d '{" ++ dq ++ "amount" ++ dq ++ ": 10000, "
               ++ dq ++ "userId" ++ dq ++ ": " ++ dq ++ "your-user-id" ++ dq ++ "}'"));
        ("status",
         VStr ("curl http://localhost:" ++ p ++ "/status/donation-id"));
        ("balance",
         VStr ("curl " ++ dq ++ "http://localhost:" ++ p
               ++ "/balance?token=your-token" ++ dq))].

(** [app.get("/", ...)]; [res.json] answers with status 200. *)
Definition get_root (rev : revision) (P : Process) (E : Env) (req : Req) : M Reply :=
  match rev with
  | Serverless =>
      respond 200
        (VObj [("message", VStr "Saweria API is running!");
               ("version", VStr "1.0.0");
               ("endpoints", endpoints)])
  | Standalone =>
      p <- lift (ToString E (port P)) ;;
      respond 200
        (VObj [("message", VStr "Saweria API is running!");
               ("version", VStr "1.0.0");
               ("server_info",
                VObj [("host", VStr host);
                      ("port", port P);
                      ("environment", env_or (NODE_ENV P) (VStr "development"));
                      ("timestamp", VStr (Date_toISOString E))]);
               ("endpoints", endpoints);
               ("usage_examples", usage_examples p)])
  end.

(** ** The cross-origin middleware and the router *)

(** What the application hands to the response: the headers it set, the
    status and the body, JSON for [res.json] and text for
    [res.sendStatus]. *)
Inductive Body : Type :=
| JsonBody (v : value)
| TextBody (s : string).

Record Wire : Type := {
  set_headers : list (string * string);
  wire_code : Z;
  wire_body : Body
}.

(** How a request ends: answered by the application, or left to the
    framework, which answers a request no route serves (with the headers
    set so far) and a body the parser refused (with the parser's status). *)
Inductive Outcome : Type :=
| Answered (w : Wire)
| Unrouted (h : list (string * string))
| ParserError (st : Z).

(** A route of the application. *)
Inductive target : Type :=
| Root
| Route (ep : endpoint).

(** What the body parser made of the request. *)
Inductive parsing : Type :=
| Parsed
| Refused (st : Z).

(** A request as the application meets it: its method, what the body
    parser did, the route whose path pattern the router matches against
    its path, if any, and what the route is handed. *)
Record Incoming : Type := {
  verb : string;
  parser : parsing;
  matched : option target;
  request : Req
}.

(** The methods a route is registered for: [app.post] serves POST,
    [app.get] serves GET and, as the router has it, HEAD. *)
Definition serves (t : target) (v : string) : bool :=
  match t with
  | Route PostQris => (v =? "POST")%string
  | _ => (v =? "GET")%string || (v =? "HEAD")%string
  end.

Definition route (rev : revision) (P : Process) (E : Env) (t : target) (req : Req)
  : M Reply :=
  match t with
  | Root => get_root rev P E req
  | Route ep => handle rev ep E req
  end.

(** The router, reached through [next()] with the headers [h] set. *)
Definition router (rev : revision) (P : Process) (E : Env) (inc : Incoming)
           (h : list (string * string)) : M Outcome :=
  match matched inc with
  | Some t =>
      if serves t (verb inc) then
        r <- route rev P E t (request inc) ;;
        ret (Answered {| set_headers := h; wire_code := code r;
                         wire_body := JsonBody (sent r) |})
      else ret (Unrouted h)
  | None => ret (Unrouted h)
  end.

(** The three [res.header] calls. *)
Definition cors_headers : list (string * string) :=
  [("Access-Control-Allow-Origin", "*");
   ("Access-Control-Allow-Methods", "GET, POST, PUT, DELETE, OPTIONS");
   ("Access-Control-Allow-Headers",
    "Origin, X-Requested-With, Content-Type, Accept, Authorization")].

(** [app.use((req, res, next) => ...)] *)
Definition cors (v : string) (next : list (string * string) -> M Outcome) : M Outcome :=
  let h := cors_headers in
  if (v =? "OPTIONS")%string then
    ret (Answered {| set_headers := h; wire_code := 200; wire_body := TextBody "OK" |})
  else
    next h.

(** The application: [bodyParser.json()], then the middleware, then the
    router. *)
Definition app (rev : revision) (P : Process) (E : Env) (inc : Incoming) : M Outcome :=
  match parser inc with
  | Refused st => ret (ParserError st)
  | Parsed => cors (verb inc) (router rev P E inc)
  end.


(** ** Platforms seen through a change of their replies *)

Definition with_reply (f : Response -> Response) (E : Env) : Env :=
  {| upstream := fun rq =>
       match upstream E rq with
       | Normal r => Normal (f r)
       | Throw m => Throw m
       end;
     JSON_parse := JSON_parse E;
     JSON_stringify := JSON_stringify E;
     Number_toString := Number_toString E;
     QRCode_toDataURL := QRCode_toDataURL E;
     Date_toISOString := Date_toISOString E |}.

(** The message the second revision of [generateQRIS] derives from a body
    it does not parse. *)
Definition classification (st : Z) (t : string) : string :=
  if includes t "cloudflare" || includes t "cf-ray" then cloudflare_message
  else if includes t "<!DOCTYPE" then html_message
  else non_json_message st.

(** ** The envelope behind a reply

    What the client function of a route returned after its call [rq]. *)

Definition outcome (rev : revision) (ep : endpoint) (E : Env) (rq : Request)
           (result : value) : Prop :=
  match ep with
  | PostQris => qris_result rev E rq result
  | GetStatus => status_result E rq result
  | GetBalance => balance_result E rq result
  end.

(** ** A platform whose QR strings are too long to encode *)

Definition oversize_env : Env :=
  {| upstream := answers 200 (Some "application/json") sample_text;
     JSON_parse := sample_parse;
     JSON_stringify := sample_stringify;
     Number_toString := sample_Number_toString;
     QRCode_toDataURL := fun _ _ =>
       Throw "The amount of data is too big to be stored in a QR Code";
     Date_toISOString := "2025-01-15T10:30:00.000Z" |}.

(** ** The runs of [POST /qris] *)

(** How a run of [POST /qris] can end. *)
Inductive qris_run (rev : revision) (E : Env) (req : Req)
  : completion Reply -> Trace -> Prop :=
| run_unhandled m :
    nullish (body req) = true ->
    qris_run rev E req (Throw m) []
| run_rejected amount userId :
    destructure (body req) "amount" = Normal amount ->
    destructure (body req) "userId" = Normal userId ->
    truthy amount = false \/ truthy userId = false ->
    qris_run rev E req
      (Normal {| code := 400; sent := failure "Amount and userId are required" |}) []
| run_unanswered amount userId m :
    destructure (body req) "amount" = Normal amount ->
    destructure (body req) "userId" = Normal userId ->
    truthy amount = true -> truthy userId = true ->
    ToString E userId = Throw m ->
    qris_run rev E req (Throw m) []
| run_unprinted amount userId id m :
    destructure (body req) "amount" = Normal amount ->
    destructure (body req) "userId" = Normal userId ->
    truthy amount = true -> truthy userId = true ->
    ToString E userId = Normal id ->
    rev = Standalone -> ToString E amount = Throw m ->
    qris_run rev E req
      (Normal {| code := 400; sent := qris_failure rev E m |}) []
| run_called amount userId id rq result (b : bool) :
    destructure (body req) "amount" = Normal amount ->
    destructure (body req) "userId" = Normal userId ->
    truthy amount = true -> truthy userId = true ->
    ToString E userId = Normal id ->
    (rev = Standalone -> printable E amount = true) ->
    get result "success" = Normal (VBool b) ->
    url rq = "https://backend.saweria.co/donations/" ++ id ->
    method rq = "POST" ->
    payload rq = Some (JSON_stringify E (donation amount)) ->
    qris_result rev E rq result ->
    qris_run rev E req
      (Normal {| code := if b then 200 else 400; sent := result |}) [rq].

(** A truthy [userId] of the body has a text. *)
Definition userId_printable (E : Env) (req : Req) : Prop :=
  forall amount userId,
    destructure (body req) "amount" = Normal amount ->
    destructure (body req) "userId" = Normal userId ->
    truthy amount = true -> truthy userId = true ->
    printable E userId = true.

(** ** Substrings *)

(** [needle] occurs somewhere in [s]. *)
Definition contains (s needle : string) : Prop :=
  exists before after, s = before ++ needle ++ after.

(** ** Index keys *)

(** The first character of a decimal numeral. *)
Definition numeral_head (c : ascii) : bool :=
  existsb (Ascii.eqb c)
          ["0"; "1"; "2"; "3"; "4"; "5"; "6"; "7"; "8"; "9"; "-"]%char.


(** * Proof automation *)

Ltac unfold_client :=
  unfold generateQRIS, checkPaymentStatus, checkAccountBalance,
         V1.generateQRIS, V2.generateQRIS,
         V1.checkPaymentStatus, V2.checkPaymentStatus,
         V1.checkAccountBalance, V2.checkAccountBalance,
         try_catch, bind, fetch, json, text, lift, ret, throw.

Ltac name_request E rq :=
  match goal with
  | |- context [upstream E ?r] => exists r; set (rq := r)
  end.

Ltac done_with := eexists; repeat split; try reflexivity.

Ltac same_reply :=
  repeat match goal with
         | H1 : ?x = Normal _, H2 : ?x = Normal _ |- _ =>
             rewrite H1 in H2; inversion H2; subst; clear H2
         | H1 : ?x = Normal _, H2 : ?x = Throw _ |- _ =>
             rewrite H1 in H2; discriminate H2
         | H1 : ?x = true, H2 : ?x = false |- _ =>
             rewrite H1 in H2; discriminate H2
         end.

Ltac same_outcome :=
  repeat (same_reply;
          match goal with
          | H1 : ?x = Throw _, H2 : ?x = Throw _ |- _ =>
              rewrite H1 in H2; inversion H2; subst; clear H2
          end);
  same_reply.

Ltac split_cases :=
  repeat match goal with
         | |- context [match ?x with _ => _ end] =>
             lazymatch x with
             | context [match _ with _ => _ end] => fail
             | _ => destruct x; simpl
             end
         end.

Ltac same_answer H :=
  match goal with
  | |- context [upstream ?e ?a] =>
      match goal with
      | |- context [upstream e ?b] =>
          tryif constr_eq a b then fail else rewrite (H a b)
      end
  end.

(** * Properties *)

(** ** Objects *)

Lemma lookup_assign_same (k : string) (v : value) (o : Obj) :
  lookup k (assign k v o) = Some v.
Proof.
  induction o as [|[k' v'] rest IH]; simpl.
  - now rewrite String.eqb_refl.
  - destruct (k' =? k)%string eqn:Hk; simpl; rewrite Hk; auto.
Qed.

Lemma lookup_assign_other (k k' : string) (v : value) (o : Obj) :
  k' <> k -> lookup k' (assign k v o) = lookup k' o.
Proof.
  intros Hne. induction o as [|[k0 v0] rest IH]; simpl.
  - destruct (k =? k')%string eqn:Hk; auto.
    apply String.eqb_eq in Hk. congruence.
  - destruct (k0 =? k)%string eqn:Hk; simpl.
    + apply String.eqb_eq in Hk. subst k0.
      destruct (k =? k')%string eqn:Hk'; auto.
      apply String.eqb_eq in Hk'. congruence.
    + now rewrite IH.
Qed.

Lemma truthy_not_nullish (v : value) : truthy v = true -> nullish v = false.
Proof. destruct v; simpl; congruence. Qed.

(** Index keys are decimal numerals: none of them is [qr_string]. *)
Lemma string_of_Z_head (n : Z) :
  exists c rest, string_of_Z n = String c rest /\ c <> "q"%char.
Proof.
  unfold string_of_Z.
  destruct (Z.to_int n) as [d|d]; simpl.
  - destruct d; simpl; eexists; eexists; (split; [reflexivity | discriminate]).
  - eexists; eexists; (split; [reflexivity | discriminate]).
Qed.

Lemma lookup_absent (k : string) (o : Obj) :
  (forall k' v, In (k', v) o -> k' <> k) -> lookup k o = None.
Proof.
  induction o as [|[k0 v0] rest IH]; simpl; intros H; auto.
  destruct (k0 =? k)%string eqn:Hk.
  - apply String.eqb_eq in Hk. exfalso. apply (H k0 v0); auto.
  - apply IH. intros k' v Hin. apply (H k' v). now right.
Qed.

Lemma indexed_no_qr_string (l : list value) (tail : Obj) :
  lookup "qr_string" tail = None ->
  lookup "qr_string" (indexed l ++ tail)%list = None.
Proof.
  intros Htail. unfold indexed. generalize 0%nat.
  induction l as [|x l IH]; intros start; simpl; auto.
  destruct (string_of_Z_head (Z.of_nat start)) as (c & rest & Heq & Hc).
  unfold string_of_nat at 1. rewrite Heq.
  replace (String c rest =? "qr_string")%string with false; [apply IH|].
  symmetry. apply String.eqb_neq. intros Habs. inversion Habs. congruence.
Qed.

(** A value with a truthy [qr_string] is an object. *)
Lemma truthy_qr_string_object (v q : value) :
  get v "qr_string" = Normal q -> truthy q = true -> exists props, v = VObj props.
Proof.
  unfold get. destruct v; simpl; try discriminate.
  - intros H Hq. inversion H; subst; discriminate.
  - intros H Hq. inversion H; subst; discriminate.
  - intros H Hq. inversion H; subst q.
    rewrite indexed_no_qr_string in Hq by reflexivity. discriminate.
  - intros H Hq. inversion H; subst q.
    rewrite indexed_no_qr_string in Hq by reflexivity. discriminate.
  - intros _ _. now eexists.
Qed.

(** ** Validation at the routes *)

Lemma destructure_missing (b : value) (k : string) :
  missing b k -> destructure b k = Normal VUndefined.
Proof. intros [Hb Hk]. unfold destructure. now rewrite Hb, Hk. Qed.

Lemma destructure_total (b : value) (k k' : string) (v : value) :
  destructure b k = Normal v -> exists v', destructure b k' = Normal v'.
Proof.
  unfold destructure. destruct (nullish b); [discriminate|]. intros _. now eexists.
Qed.

(** Whatever the other parameter is, a falsy [amount] or a falsy [userId]
    ends the route before any outbound call. *)
Lemma post_qris_rejects (rev : revision) (E : Env) (req : Req) (amount userId : value) :
  destructure (body req) "amount" = Normal amount ->
  destructure (body req) "userId" = Normal userId ->
  truthy amount = false \/ truthy userId = false ->
  run (post_qris rev E req)
  = (Normal {| code := 400; sent := failure "Amount and userId are required" |}, []).
Proof.
  intros Ha Hu Hfalsy. unfold run, post_qris, bind, lift. rewrite Ha, Hu.
  destruct Hfalsy as [H|H]; rewrite H; simpl; [reflexivity|].
  now rewrite orb_true_r.
Qed.

(** C3: a [POST /qris] whose body lacks [amount] or [userId] is answered
    with exactly 400 and [{success:false, error:"Amount and userId are
    required"}], and no outbound call is made. *)
Theorem missing_amount_or_userId_rejected (rev : revision) (E : Env) (req : Req) :
  missing (body req) "amount" \/ missing (body req) "userId" ->
  run (post_qris rev E req)
  = (Normal {| code := 400;
               sent := VObj [("success", VBool false);
                             ("error", VStr "Amount and userId are required")] |},
     []).
Proof.
  intros Hmiss.
  assert (Hb : nullish (body req) = false) by (destruct Hmiss as [[H _]|[H _]]; exact H).
  assert (Ha : exists a, destructure (body req) "amount" = Normal a)
    by (unfold destructure; rewrite Hb; now eexists).
  assert (Hu : exists u, destructure (body req) "userId" = Normal u)
    by (unfold destructure; rewrite Hb; now eexists).
  destruct Ha as [a Ha], Hu as [u Hu].
  apply (post_qris_rejects rev E req a u Ha Hu).
  destruct Hmiss as [Hm|Hm]; apply destructure_missing in Hm.
  - left. rewrite Hm in Ha. now inversion Ha.
  - right. rewrite Hm in Hu. now inversion Hu.
Qed.

Lemma missing_amount_or_userId_rejected_witness :
  run (post_qris Standalone (sample_env (answers 200 None ""))
         {| body := VObj [("userId", VStr "abc")]; params := []; query := [] |})
  = (Normal {| code := 400;
               sent := VObj [("success", VBool false);
                             ("error", VStr "Amount and userId are required")] |},
     []).
Proof.
  apply missing_amount_or_userId_rejected.
  left. split; reflexivity.
Defined.

(** C7: a [GET /balance] without a [token] query parameter is answered with
    exactly 400 and [{success:false, error:"Token is required"}], and no
    outbound call is made. *)
Theorem missing_token_rejected (rev : revision) (E : Env) (req : Req) :
  lookup "token" (query req) = None ->
  run (get_balance rev E req)
  = (Normal {| code := 400;
               sent := VObj [("success", VBool false);
                             ("error", VStr "Token is required")] |},
     []).
Proof.
  intros Hq. unfold run, get_balance, field. now rewrite Hq.
Qed.

Lemma missing_token_rejected_witness :
  run (get_balance Serverless (sample_env (answers 200 None ""))
         {| body := VObj []; params := []; query := [("page", VStr "2")] |})
  = (Normal {| code := 400;
               sent := VObj [("success", VBool false);
                             ("error", VStr "Token is required")] |},
     []).
Proof.
  apply missing_token_rejected. reflexivity.
Defined.


(** ** Text conversion *)

Lemma ToString_string (E : Env) (s : string) : ToString E (VStr s) = Normal s.
Proof. reflexivity. Qed.

Lemma ToString_number (E : Env) (x : float) :
  ToString E (VNum x) = Normal (number_text E x).
Proof. reflexivity. Qed.

Lemma ToString_param (E : Env) (ps : list (string * string)) (k : string) :
  exists id, ToString E (param ps k) = Normal id.
Proof.
  induction ps as [|[k' s] rest IH]; simpl.
  - now eexists.
  - destruct (k' =? k)%string; [now eexists | exact IH].
Qed.

Lemma printable_text (E : Env) (v : value) :
  printable E v = true -> exists s, ToString E v = Normal s.
Proof.
  unfold printable. destruct (ToString E v); [now eexists | discriminate].
Qed.

Lemma unprintable_text (E : Env) (v : value) :
  printable E v = false -> exists m, ToString E v = Throw m.
Proof.
  unfold printable. destruct (ToString E v); [discriminate | now eexists].
Qed.

Lemma console_log_printed (E : Env) (d id s : string) (u a : value) (tr : Trace) :
  ToString E u = Normal id -> ToString E a = Normal s ->
  console_log E [VStr d; u; a] tr = (Normal tt, tr).
Proof.
  intros Hu Ha. unfold console_log, bind, lift, ret. simpl. now rewrite Hu, Ha.
Qed.

Lemma console_log_thrown (E : Env) (d id m : string) (u a : value) (tr : Trace) :
  ToString E u = Normal id -> ToString E a = Throw m ->
  console_log E [VStr d; u; a] tr = (Throw m, tr).
Proof.
  intros Hu Ha. unfold console_log, bind, lift, ret. simpl. now rewrite Hu, Ha.
Qed.

Lemma console_log_cases (E : Env) (d id : string) (u a : value) (tr : Trace) :
  ToString E u = Normal id ->
  console_log E [VStr d; u; a] tr
  = match ToString E a with
    | Normal _ => (Normal tt, tr)
    | Throw m => (Throw m, tr)
    end.
Proof.
  intros Hu. unfold console_log, bind, lift, ret. simpl. rewrite Hu.
  now destruct (ToString E a).
Qed.

(** Splits on the text of every value that is converted. *)
Ltac text_cases E :=
  repeat match goal with
         | |- context [ToString E ?v] =>
             let H := fresh "Htext" in
             destruct (ToString E v) eqn:H; simpl;
             try (erewrite console_log_cases by eassumption)
         end.

(** A positive number is truthy. *)
Lemma positive_truthy (x : float) :
  (0 <? x)%float = true -> truthy (VNum x) = true.
Proof.
  unfold truthy, is_zero, is_nan.
  rewrite ltb_spec, !eqb_spec.
  replace (Prim2SF 0%float) with (S754_zero false) by reflexivity.
  replace (Prim2SF zero) with (S754_zero false) by reflexivity.
  destruct (Prim2SF x) as [s|s| |s m e]; try destruct s; simpl;
    intros H; try discriminate H; try reflexivity.
  unfold SFeqb, SFcompare. rewrite Z.compare_refl, Pos.compare_refl. reflexivity.
Qed.

(** ** The client functions against the outcome relations *)

Lemma get_opt_truthy (v q : value) (k : string) :
  get_opt v k = Normal q -> truthy q = true -> get v k = Normal q.
Proof.
  unfold get_opt. destruct (nullish v); auto.
  intros H Hq. inversion H; subst; discriminate.
Qed.

Lemma get_opt_normal (v : value) (k : string) : exists q, get_opt v k = Normal q.
Proof.
  unfold get_opt, get. destruct (nullish v); now eexists.
Qed.

(** A [userId] without a text: the function throws before its [try]. *)
Lemma generateQRIS_throws (rev : revision) (E : Env) (amount userId : value)
      (tr : Trace) (m : string) :
  ToString E userId = Throw m ->
  generateQRIS rev E amount userId tr = (Throw m, tr).
Proof.
  intros Hu. destruct rev; unfold_client; now rewrite Hu.
Qed.

(** An [amount] without a text: the second revision fails on its console
    line, inside the [try] and before the call. *)
Lemma generateQRIS_unprinted (E : Env) (amount userId : value) (tr : Trace)
      (id m : string) :
  ToString E userId = Normal id -> ToString E amount = Throw m ->
  generateQRIS Standalone E amount userId tr
  = (Normal (qris_failure Standalone E m), tr).
Proof.
  intros Hu Ha. unfold_client. rewrite Hu. cbv zeta.
  now rewrite (console_log_thrown E _ id m _ _ _ Hu Ha).
Qed.

Lemma generateQRIS_returns (rev : revision) (E : Env) (amount userId : value)
      (tr : Trace) (id : string) :
  ToString E userId = Normal id ->
  (rev = Standalone -> printable E amount = true) ->
  exists rq result,
    generateQRIS rev E amount userId tr = (Normal result, (tr ++ [rq])%list)
    /\ url rq = "https://backend.saweria.co/donations/" ++ id
    /\ method rq = "POST"
    /\ payload rq = Some (JSON_stringify E (donation amount))
    /\ qris_result rev E rq result.
Proof.
  intros Hu Ha.
  destruct rev; unfold_client; rewrite Hu; cbv zeta.
  - name_request E rq.
    destruct (upstream E rq) as [rsp|m] eqn:Hup;
      [|done_with; apply (qris_failed Serverless); eapply qris_unreachable; eauto].
    destruct (stream rsp) as [t|m] eqn:Hst;
      [|done_with; apply (qris_failed Serverless); eapply qris_unreadable; eauto].
    destruct (JSON_parse E t) as [result|m] eqn:Hparse;
      [|done_with; apply (qris_failed Serverless); eapply qris_unparsable; eauto].
    destruct (get result "data") as [record|m] eqn:Hdata;
      [|done_with; apply (qris_failed Serverless); eapply qris_no_result; eauto].
    destruct (get_opt_normal record "qr_string") as [q Hq]. rewrite Hq.
    destruct (truthy q) eqn:Htq;
      [|done_with; apply (qris_failed Serverless); eapply qris_no_qr_string; eauto].
    pose proof (get_opt_truthy _ _ _ Hq Htq) as Hget. rewrite Hget.
    destruct (QRCode_toDataURL E q qr_options) as [img|m] eqn:Hqr;
      [|done_with; apply (qris_failed Serverless); eapply qris_not_encoded; eauto].
    done_with. eapply qris_created; eauto.
  - destruct (printable_text E amount (Ha eq_refl)) as [s Hs].
    rewrite (console_log_printed E _ id s _ _ _ Hu Hs).
    name_request E rq.
    destruct (upstream E rq) as [rsp|m] eqn:Hup;
      [|done_with; apply (qris_failed Standalone); eapply qris_unreachable; eauto].
    destruct (classified Standalone rsp) eqn:Hcl; simpl in Hcl; rewrite Hcl.
    + destruct (stream rsp) as [t|m] eqn:Hst;
        [|done_with; apply (qris_failed Standalone); eapply qris_unreadable; eauto].
      destruct (includes t "cloudflare" || includes t "cf-ray") eqn:Hcf;
        [done_with; apply (qris_failed Standalone); eapply qris_cloudflare; eauto|].
      destruct (includes t "<!DOCTYPE") eqn:Hdoc;
        [done_with; apply (qris_failed Standalone); eapply qris_html; eauto|].
      done_with; apply (qris_failed Standalone); eapply qris_non_json; eauto.
    + destruct (stream rsp) as [t|m] eqn:Hst;
        [|done_with; apply (qris_failed Standalone); eapply qris_unreadable; eauto].
      destruct (JSON_parse E t) as [result|m] eqn:Hparse;
        [|done_with; apply (qris_failed Standalone); eapply qris_unparsable; eauto].
      destruct (get result "data") as [record|m] eqn:Hdata;
        [|done_with; apply (qris_failed Standalone); eapply qris_no_result; eauto].
      destruct (get_opt_normal record "qr_string") as [q Hq]. rewrite Hq.
      destruct (truthy q) eqn:Htq;
        [|done_with; apply (qris_failed Standalone); eapply qris_no_qr_string; eauto].
      pose proof (get_opt_truthy _ _ _ Hq Htq) as Hget. rewrite Hget.
      destruct (QRCode_toDataURL E q qr_options) as [img|m] eqn:Hqr;
        [|done_with; apply (qris_failed Standalone); eapply qris_not_encoded; eauto].
      done_with. eapply qris_created; eauto.
Qed.

Lemma get_truthy_data (record : value) :
  truthy record = true -> exists q, get record "qr_string" = Normal q.
Proof.
  intros H. unfold get. rewrite (truthy_not_nullish _ H). now eexists.
Qed.

Lemma checkPaymentStatus_returns (rev : revision) (E : Env) (donationId : value)
      (tr : Trace) (id : string) :
  ToString E donationId = Normal id ->
  exists rq result,
    checkPaymentStatus rev E donationId tr = (Normal result, (tr ++ [rq])%list)
    /\ url rq = "https://backend.saweria.co/donations/qris/" ++ id
    /\ method rq = "GET"
    /\ payload rq = None
    /\ status_result E rq result.
Proof.
  intros Hid.
  destruct rev; unfold_client; rewrite Hid; cbv zeta; name_request E rq.
  all: destruct (upstream E rq) as [rsp|m] eqn:Hup;
    [|done_with; apply status_failed; eapply data_unreachable; eauto].
  all: destruct (stream rsp) as [t|m] eqn:Hst;
    [|done_with; apply status_failed; eapply data_unreadable; eauto].
  all: destruct (JSON_parse E t) as [result|m] eqn:Hparse;
    [|done_with; apply status_failed; eapply data_unparsable; eauto].
  all: destruct (get result "data") as [record|m] eqn:Hdata;
    [|done_with; apply status_failed; eapply data_no_result; eauto].
  all: destruct (truthy record) eqn:Htr;
    [|done_with; apply status_failed; eapply data_falsy; eauto].
  all: destruct (get_truthy_data record Htr) as [q Hq]; rewrite Hq.
  all: done_with; eapply status_known; eauto.
Qed.

(** A token without a text: the second revision fails inside its [try],
    before the call. *)
Lemma checkAccountBalance_unprinted (E : Env) (token : value) (tr : Trace) (m : string) :
  ToString E token = Throw m ->
  checkAccountBalance Standalone E token tr = (Normal (failure m), tr).
Proof.
  intros Ht. unfold_client. cbv zeta. now rewrite Ht.
Qed.

Lemma checkAccountBalance_returns (rev : revision) (E : Env) (token : value)
      (tr : Trace) (bearer : string) :
  (rev = Standalone -> ToString E token = Normal bearer) ->
  exists rq result,
    checkAccountBalance rev E token tr = (Normal result, (tr ++ [rq])%list)
    /\ url rq = "https://backend.saweria.co/donations/balance"
    /\ method rq = "GET"
    /\ header "Authorization" (headers rq) = Some (authorization rev token bearer)
    /\ balance_result E rq result.
Proof.
  intros Ht.
  destruct rev; unfold_client; cbv zeta; try rewrite (Ht eq_refl); name_request E rq.
  all: destruct (upstream E rq) as [rsp|m] eqn:Hup;
    [|done_with; apply balance_failed; eapply data_unreachable; eauto].
  all: destruct (stream rsp) as [t|m] eqn:Hst;
    [|done_with; apply balance_failed; eapply data_unreadable; eauto].
  all: destruct (JSON_parse E t) as [result|m] eqn:Hparse;
    [|done_with; apply balance_failed; eapply data_unparsable; eauto].
  all: destruct (get result "data") as [record|m] eqn:Hdata;
    [|done_with; apply balance_failed; eapply data_no_result; eauto].
  all: destruct (truthy record) eqn:Htr;
    [|done_with; apply balance_failed; eapply data_falsy; eauto].
  all: done_with; eapply balance_known; eauto.
Qed.

(** ** The routes on top of the client *)

Lemma qris_result_success (rev : revision) (E : Env) (rq : Request) (result : value) :
  qris_result rev E rq result -> exists b, get result "success" = Normal (VBool b).
Proof.
  intros H. destruct H; [now exists true|].
  exists false. now destruct rev.
Qed.

Lemma status_result_success (E : Env) (rq : Request) (result : value) :
  status_result E rq result -> exists b, get result "success" = Normal (VBool b).
Proof. intros H. destruct H; [now exists true | now exists false]. Qed.

Lemma balance_result_success (E : Env) (rq : Request) (result : value) :
  balance_result E rq result -> exists b, get result "success" = Normal (VBool b).
Proof. intros H. destruct H; [now exists true | now exists false]. Qed.

Lemma post_qris_runs (rev : revision) (E : Env) (req : Req) (amount userId : value)
      (id : string) :
  destructure (body req) "amount" = Normal amount ->
  destructure (body req) "userId" = Normal userId ->
  truthy amount = true -> truthy userId = true ->
  ToString E userId = Normal id ->
  (rev = Standalone -> printable E amount = true) ->
  exists rq result (b : bool),
    run (post_qris rev E req)
    = (Normal {| code := if b then 200 else 400; sent := result |}, [rq])
    /\ get result "success" = Normal (VBool b)
    /\ url rq = "https://backend.saweria.co/donations/" ++ id
    /\ method rq = "POST"
    /\ payload rq = Some (JSON_stringify E (donation amount))
    /\ qris_result rev E rq result.
Proof.
  intros Ha Hu Hta Htu Hid Hpr.
  destruct (generateQRIS_returns rev E amount userId [] id Hid Hpr)
    as (rq & result & Hrun & Hrq).
  destruct Hrq as (Hurl & Hmethod & Hpayload & Hres).
  destruct (qris_result_success _ _ _ _ Hres) as [b Hb].
  exists rq, result, b. repeat split; auto.
  unfold run, post_qris, bind, lift, respond, ret.
  rewrite Ha, Hu, Hta, Htu. simpl. rewrite Hrun, Hb. now destruct b.
Qed.

(** A truthy [userId] without a text: the route throws and sends nothing. *)
Lemma post_qris_unanswered (rev : revision) (E : Env) (req : Req)
      (amount userId : value) (m : string) :
  destructure (body req) "amount" = Normal amount ->
  destructure (body req) "userId" = Normal userId ->
  truthy amount = true -> truthy userId = true ->
  ToString E userId = Throw m ->
  run (post_qris rev E req) = (Throw m, []).
Proof.
  intros Ha Hu Hta Htu Hid.
  unfold run, post_qris, bind, lift, respond, ret.
  rewrite Ha, Hu, Hta, Htu. simpl.
  now rewrite (generateQRIS_throws rev E amount userId [] m Hid).
Qed.

(** A truthy [amount] without a text, in the second revision: a 400 with
    the time of the failure, and no call. *)
Lemma post_qris_unprinted (E : Env) (req : Req) (amount userId : value)
      (id m : string) :
  destructure (body req) "amount" = Normal amount ->
  destructure (body req) "userId" = Normal userId ->
  truthy amount = true -> truthy userId = true ->
  ToString E userId = Normal id -> ToString E amount = Throw m ->
  run (post_qris Standalone E req)
  = (Normal {| code := 400; sent := qris_failure Standalone E m |}, []).
Proof.
  intros Ha Hu Hta Htu Hid Hm.
  unfold run, post_qris, bind, lift, respond, ret.
  rewrite Ha, Hu, Hta, Htu. cbn [negb orb].
  now rewrite (generateQRIS_unprinted E amount userId [] id m Hid Hm).
Qed.

Lemma get_status_runs (rev : revision) (E : Env) (req : Req) :
  exists rq result (b : bool) id,
    run (get_status rev E req)
    = (Normal {| code := if b then 200 else 400; sent := result |}, [rq])
    /\ get result "success" = Normal (VBool b)
    /\ ToString E (param (params req) "donationId") = Normal id
    /\ url rq = "https://backend.saweria.co/donations/qris/" ++ id
    /\ method rq = "GET"
    /\ status_result E rq result.
Proof.
  destruct (ToString_param E (params req) "donationId") as [id Hid].
  destruct (checkPaymentStatus_returns rev E (param (params req) "donationId") [] id Hid)
    as (rq & result & Hrun & Hurl & Hmethod & _ & Hres).
  destruct (status_result_success _ _ _ Hres) as [b Hb].
  exists rq, result, b, id. repeat split; auto.
  unfold run, get_status, bind, lift, respond, ret. cbv zeta.
  rewrite Hrun, Hb. now destruct b.
Qed.

Lemma get_balance_runs (rev : revision) (E : Env) (req : Req) (bearer : string) :
  truthy (field (query req) "token") = true ->
  (rev = Standalone -> ToString E (field (query req) "token") = Normal bearer) ->
  exists rq result (b : bool),
    run (get_balance rev E req)
    = (Normal {| code := if b then 200 else 400; sent := result |}, [rq])
    /\ get result "success" = Normal (VBool b)
    /\ url rq = "https://backend.saweria.co/donations/balance"
    /\ method rq = "GET"
    /\ header "Authorization" (headers rq)
       = Some (authorization rev (field (query req) "token") bearer)
    /\ balance_result E rq result.
Proof.
  intros Htok Hpr.
  destruct (checkAccountBalance_returns rev E (field (query req) "token") [] bearer Hpr)
    as (rq & result & Hrun & Hurl & Hmethod & Hauth & Hres).
  destruct (balance_result_success _ _ _ Hres) as [b Hb].
  exists rq, result, b. repeat split; auto.
  unfold run, get_balance, bind, lift, respond, ret. cbv zeta.
  rewrite Htok. simpl. rewrite Hrun, Hb. now destruct b.
Qed.

(** A truthy token without a text, in the second revision: a 400 with the
    message of the conversion, and no call. *)
Lemma get_balance_unprinted (E : Env) (req : Req) (m : string) :
  truthy (field (query req) "token") = true ->
  ToString E (field (query req) "token") = Throw m ->
  run (get_balance Standalone E req)
  = (Normal {| code := 400; sent := failure m |}, []).
Proof.
  intros Htok Hm.
  unfold run, get_balance, bind, lift, respond, ret. cbv zeta.
  rewrite Htok. cbn [negb].
  now rewrite (checkAccountBalance_unprinted E _ [] m Hm).
Qed.

Lemma get_balance_rejects (rev : revision) (E : Env) (req : Req) :
  truthy (field (query req) "token") = false ->
  run (get_balance rev E req)
  = (Normal {| code := 400; sent := failure "Token is required" |}, []).
Proof.
  intros Htok. unfold run, get_balance. cbv zeta. now rewrite Htok.
Qed.

Lemma post_qris_unhandled (rev : revision) (E : Env) (req : Req) :
  nullish (body req) = true ->
  exists m, run (post_qris rev E req) = (Throw m, []).
Proof.
  intros Hb. unfold run, post_qris, bind, lift, destructure. rewrite Hb.
  now eexists.
Qed.

Lemma post_qris_body_read (req : Req) :
  nullish (body req) = false ->
  exists a u, destructure (body req) "amount" = Normal a
              /\ destructure (body req) "userId" = Normal u.
Proof.
  intros Hb. unfold destructure. rewrite Hb. now do 2 eexists.
Qed.

Lemma qris_failure_fields (rev : revision) (E : Env) (m : string) :
  get (qris_failure rev E m) "success" = Normal (VBool false)
  /\ get (qris_failure rev E m) "error" = Normal (VStr m)
  /\ get (qris_failure rev E m) "data" = Normal VUndefined.
Proof. now destruct rev. Qed.


(** Every run of [POST /qris] ends in one of the five ways. *)
Lemma post_qris_cases (rev : revision) (E : Env) (req : Req) :
  exists c tr, run (post_qris rev E req) = (c, tr) /\ qris_run rev E req c tr.
Proof.
  destruct (nullish (body req)) eqn:Hb.
  { destruct (post_qris_unhandled rev E req Hb) as [m Hm].
    exists (Throw m), []. split; [exact Hm | now apply run_unhandled]. }
  destruct (post_qris_body_read req Hb) as (a & u & Ha & Hu).
  destruct (truthy a) eqn:Hta; [destruct (truthy u) eqn:Htu|].
  - destruct (ToString E u) as [id|m] eqn:Hid.
    + destruct rev.
      * destruct (post_qris_runs Serverless E req a u id Ha Hu Hta Htu Hid)
          as (rq & result & b & Hrun & Hflag & Hurl & Hmethod & Hpayload & Hres);
          [discriminate|].
        do 2 eexists. split; [exact Hrun|]. eapply run_called; eauto. discriminate.
      * destruct (printable E a) eqn:Hpr.
        -- destruct (post_qris_runs Standalone E req a u id Ha Hu Hta Htu Hid)
             as (rq & result & b & Hrun & Hflag & Hurl & Hmethod & Hpayload & Hres);
             [auto|].
           do 2 eexists. split; [exact Hrun|]. eapply run_called; eauto.
        -- destruct (unprintable_text E a Hpr) as [m Hm].
           do 2 eexists. split; [exact (post_qris_unprinted E req a u id m Ha Hu Hta Htu Hid Hm)|].
           eapply run_unprinted; eauto.
    + do 2 eexists. split; [exact (post_qris_unanswered rev E req a u m Ha Hu Hta Htu Hid)|].
      eapply run_unanswered; eauto.
  - do 2 eexists.
    split; [exact (post_qris_rejects rev E req a u Ha Hu (or_intror Htu))|].
    eapply run_rejected; eauto.
  - do 2 eexists.
    split; [exact (post_qris_rejects rev E req a u Ha Hu (or_introl Hta))|].
    eapply run_rejected; eauto.
Qed.

Lemma post_qris_run (rev : revision) (E : Env) (req : Req)
      (c : completion Reply) (tr : Trace) :
  run (post_qris rev E req) = (c, tr) -> qris_run rev E req c tr.
Proof.
  intros Hrun. destruct (post_qris_cases rev E req) as (c' & tr' & Hrun' & Hcase).
  rewrite Hrun' in Hrun. now inversion Hrun; subst.
Qed.

(** Every response of [POST /qris] is the validation error, sent before
    any call, or the second revision's failure to print [amount], before
    any call too, or the envelope of [generateQRIS] after exactly one. *)
Lemma post_qris_inv (rev : revision) (E : Env) (req : Req) (r : Reply) (tr : Trace) :
  run (post_qris rev E req) = (Normal r, tr) ->
  (r = {| code := 400; sent := failure "Amount and userId are required" |} /\ tr = [])
  \/ (exists m, rev = Standalone
                /\ r = {| code := 400; sent := qris_failure rev E m |} /\ tr = [])
  \/ (exists amount userId rq result (b : bool),
         destructure (body req) "amount" = Normal amount
         /\ destructure (body req) "userId" = Normal userId
         /\ truthy amount = true /\ truthy userId = true
         /\ r = {| code := if b then 200 else 400; sent := result |}
         /\ tr = [rq]
         /\ get result "success" = Normal (VBool b)
         /\ qris_result rev E rq result).
Proof.
  intros Hrun. apply post_qris_run in Hrun.
  inversion Hrun; subst.
  - now left.
  - right. left. now exists m.
  - right. right. exists amount, userId, rq, result, b. now repeat split.
Qed.

(** How a run of [GET /balance] can end. *)
Lemma get_balance_cases (rev : revision) (E : Env) (req : Req) :
  run (get_balance rev E req)
  = (Normal {| code := 400; sent := failure "Token is required" |}, [])
  \/ (exists m, rev = Standalone
                /\ truthy (field (query req) "token") = true
                /\ ToString E (field (query req) "token") = Throw m
                /\ run (get_balance rev E req)
                   = (Normal {| code := 400; sent := failure m |}, []))
  \/ (exists rq result (b : bool) bearer,
         truthy (field (query req) "token") = true
         /\ (rev = Standalone -> ToString E (field (query req) "token") = Normal bearer)
         /\ run (get_balance rev E req)
            = (Normal {| code := if b then 200 else 400; sent := result |}, [rq])
         /\ get result "success" = Normal (VBool b)
         /\ url rq = "https://backend.saweria.co/donations/balance"
         /\ method rq = "GET"
         /\ header "Authorization" (headers rq)
            = Some (authorization rev (field (query req) "token") bearer)
         /\ balance_result E rq result).
Proof.
  destruct (truthy (field (query req) "token")) eqn:Htok.
  - destruct rev.
    + right. right.
      destruct (get_balance_runs Serverless E req "" Htok)
        as (rq & result & b & Hrun & Hrest); [discriminate|].
      exists rq, result, b, "". split; [reflexivity|]. split; [discriminate|].
      split; [exact Hrun | exact Hrest].
    + destruct (ToString E (field (query req) "token")) as [bearer|m] eqn:Hpr.
      * right. right.
        destruct (get_balance_runs Standalone E req bearer Htok)
          as (rq & result & b & Hrun & Hrest); [auto|].
        exists rq, result, b, bearer. split; [reflexivity|]. split; [auto|].
        split; [exact Hrun | exact Hrest].
      * right. left. exists m. repeat split; auto.
        now apply get_balance_unprinted.
  - left. now apply get_balance_rejects.
Qed.

(** ** Status codes *)

Lemma consistent_flag (result : value) (b : bool) :
  get result "success" = Normal (VBool b) ->
  consistent {| code := if b then 200 else 400; sent := result |}.
Proof. intros H. destruct b; [left | right]; now split. Qed.

Lemma handle_consistent (rev : revision) (ep : endpoint) (E : Env) (req : Req)
      (r : Reply) (tr : Trace) :
  run (handle rev ep E req) = (Normal r, tr) -> consistent r.
Proof.
  intros Hrun. destruct ep; simpl in Hrun.
  - destruct (post_qris_inv rev E req r tr Hrun)
      as [[-> _] | [(m & _ & -> & _)
                   | (a & u & rq & result & b & _ & _ & _ & _ & -> & _ & Hflag & _)]].
    + right. now split.
    + right. destruct (qris_failure_fields rev E m) as (Hs & _). now split.
    + now apply consistent_flag.
  - destruct (get_status_runs rev E req) as (rq & result & b & id & Hrun' & Hflag & _).
    rewrite Hrun' in Hrun. inversion Hrun; subst. now apply consistent_flag.
  - destruct (get_balance_cases rev E req)
      as [Hrun' | [(m & _ & _ & _ & Hrun')
                  | (rq & result & b & bearer & _ & _ & Hrun' & Hflag & _)]];
      rewrite Hrun' in Hrun; inversion Hrun; subst.
    + right. now split.
    + right. now split.
    + now apply consistent_flag.
Qed.

Lemma handle_responds (rev : revision) (ep : endpoint) (E : Env) (req : Req) :
  nullish (body req) = false ->
  (ep = PostQris -> userId_printable E req) ->
  exists r tr, run (handle rev ep E req) = (Normal r, tr) /\ consistent r.
Proof.
  intros Hb Hpr.
  assert (Hsome : exists r tr, run (handle rev ep E req) = (Normal r, tr)).
  { destruct ep; simpl.
    - destruct (post_qris_cases rev E req) as (c & tr & Hrun & Hcase).
      rewrite Hrun. destruct Hcase; try (now do 2 eexists).
      + congruence.
      + pose proof (Hpr eq_refl amount userId H H0 H1 H2) as Hp.
        unfold printable in Hp. rewrite H3 in Hp. discriminate.
    - destruct (get_status_runs rev E req) as (rq & result & b & id & Hrun & _).
      rewrite Hrun. now do 2 eexists.
    - destruct (get_balance_cases rev E req)
        as [Hrun | [(m & _ & _ & _ & Hrun) | (rq & result & b & bearer & _ & _ & Hrun & _)]];
        rewrite Hrun; now do 2 eexists. }
  destruct Hsome as (r & tr & Hrun).
  exists r, tr. split; [exact Hrun|]. now apply (handle_consistent rev ep E req r tr).
Qed.

(** C5: every response of the three routes, in both revisions, carries
    status 200 exactly when the envelope's [success] flag is [true] and 400
    when it is [false], whatever made the call fail; and a request whose
    body went through the JSON body parser gets such a response, provided
    the [userId] that [POST /qris] puts into the URL has a text. *)
Theorem status_code_follows_success_flag
        (rev : revision) (ep : endpoint) (E : Env) (req : Req) :
  (forall r tr, run (handle rev ep E req) = (Normal r, tr) -> consistent r)
  /\ (nullish (body req) = false ->
      (ep = PostQris -> userId_printable E req) ->
      exists r tr, run (handle rev ep E req) = (Normal r, tr)
                   /\ (code r = 200 \/ code r = 400)).
Proof.
  split.
  - intros r tr Hrun. now apply (handle_consistent rev ep E req r tr).
  - intros Hb Hpr.
    destruct (handle_responds rev ep E req Hb Hpr) as (r & tr & Hrun & Hc).
    exists r, tr. split; [exact Hrun|].
    destruct Hc as [[H _]|[H _]]; auto.
Qed.

Lemma status_code_follows_success_flag_witness :
  consistent {| code := 400; sent := failure "Invalid response structure" |}
  /\ exists r tr,
       run (handle Standalone PostQris
              (sample_env (answers 200 (Some "application/json") sample_text))
              {| body := VObj [("amount", VNum 10000); ("userId", VStr "abc")];
                 params := []; query := [] |})
       = (Normal r, tr)
       /\ (code r = 200 \/ code r = 400).
Proof.
  split.
  - apply (proj1 (status_code_follows_success_flag Serverless GetStatus
                    (sample_env (answers 200 (Some "application/json") null_data_text))
                    {| body := VObj []; params := [("donationId", "d1")]; query := [] |}))
      with (tr := [{| url := "https://backend.saweria.co/donations/qris/d1";
                      method := "GET";
                      headers := (V1.browser_headers
                                  ++ [("Content-Type", VStr "application/json")])%list;
                      payload := None |}]).
    reflexivity.
  - apply (proj2 (status_code_follows_success_flag Standalone PostQris
                    (sample_env (answers 200 (Some "application/json") sample_text))
                    {| body := VObj [("amount", VNum 10000); ("userId", VStr "abc")];
                       params := []; query := [] |})).
    + reflexivity.
    + intros _ a u _ Hu _ _. inversion Hu. reflexivity.
Defined.

(** ** Falsy and non-zero amounts *)

(** C9: an [amount] of [0] is treated like a missing one, as is every other
    falsy [amount]: exactly 400 with [Amount and userId are required] and
    no outbound call; every non-zero number, be it negative, fractional or
    infinite, passes the check and, with a [userId] that is truthy and has
    a text, is posted to the platform as the [amount] of the donation. *)
Theorem zero_amount_rejected_nonzero_forwarded (rev : revision) (E : Env) (req : Req) :
  (forall x,
      destructure (body req) "amount" = Normal (VNum x) -> is_zero x = true ->
      run (post_qris rev E req)
      = (Normal {| code := 400;
                   sent := VObj [("success", VBool false);
                                 ("error", VStr "Amount and userId are required")] |},
         []))
  /\ (forall amount,
        destructure (body req) "amount" = Normal amount -> truthy amount = false ->
        run (post_qris rev E req)
        = (Normal {| code := 400;
                     sent := VObj [("success", VBool false);
                                   ("error", VStr "Amount and userId are required")] |},
           []))
  /\ (forall x userId id,
        is_zero x = false -> is_nan x = false ->
        destructure (body req) "amount" = Normal (VNum x) ->
        destructure (body req) "userId" = Normal userId -> truthy userId = true ->
        ToString E userId = Normal id ->
        exists r rq,
          run (post_qris rev E req) = (Normal r, [rq])
          /\ url rq = "https://backend.saweria.co/donations/" ++ id
          /\ method rq = "POST"
          /\ payload rq = Some (JSON_stringify E (donation (VNum x)))
          /\ get (donation (VNum x)) "amount" = Normal (VNum x)).
Proof.
  assert (Hfalsy : forall amount,
             destructure (body req) "amount" = Normal amount -> truthy amount = false ->
             run (post_qris rev E req)
             = (Normal {| code := 400; sent := failure "Amount and userId are required" |},
                [])).
  { intros amount Ha Hta.
    destruct (destructure_total _ _ "userId" _ Ha) as [u Hu].
    apply (post_qris_rejects rev E req amount u Ha Hu). now left. }
  split; [|split].
  - intros x Ha Hz. apply (Hfalsy (VNum x) Ha). simpl. now rewrite Hz.
  - exact Hfalsy.
  - intros x userId id Hz Hn Ha Hu Htu Hid.
    assert (Hta : truthy (VNum x) = true) by (simpl; now rewrite Hz, Hn).
    destruct (post_qris_runs rev E req (VNum x) userId id Ha Hu Hta Htu Hid)
      as (rq & result & b & Hrun & _ & Hurl & Hmethod & Hpayload & _);
      [reflexivity|].
    eexists; exists rq. repeat split; eauto.
Qed.

Lemma zero_amount_rejected_nonzero_forwarded_witness :
  run (post_qris Serverless (sample_env (answers 200 None ""))
         {| body := VObj [("amount", VNum 0); ("userId", VStr "abc")];
            params := []; query := [] |})
  = (Normal {| code := 400;
               sent := VObj [("success", VBool false);
                             ("error", VStr "Amount and userId are required")] |},
     [])
  /\ exists r rq,
       run (post_qris Standalone
              (sample_env (answers 200 (Some "application/json") sample_text))
              {| body := VObj [("amount", VNum (-0.5)); ("userId", VNum 1e21)];
                 params := []; query := [] |})
       = (Normal r, [rq])
       /\ url rq = "https://backend.saweria.co/donations/" ++ "1e+21"
       /\ method rq = "POST"
       /\ payload rq = Some (sample_stringify (donation (VNum (-0.5))))
       /\ get (donation (VNum (-0.5))) "amount" = Normal (VNum (-0.5)).
Proof.
  split.
  - apply (proj1 (zero_amount_rejected_nonzero_forwarded Serverless
                    (sample_env (answers 200 None ""))
                    {| body := VObj [("amount", VNum 0); ("userId", VStr "abc")];
                       params := []; query := [] |})
             0%float).
    + reflexivity.
    + reflexivity.
  - apply (proj2 (proj2 (zero_amount_rejected_nonzero_forwarded Standalone
                    (sample_env (answers 200 (Some "application/json") sample_text))
                    {| body := VObj [("amount", VNum (-0.5)); ("userId", VNum 1e21)];
                       params := []; query := [] |}))
             (-0.5)%float (VNum 1e21) "1e+21").
    + reflexivity.
    + reflexivity.
    + reflexivity.
    + reflexivity.
    + reflexivity.
    + reflexivity.
Defined.

(** ** The image and the relayed fields *)

(** The spread followed by the [qr_image] assignment: the image wins over
    any upstream [qr_image], every other key reads as it did upstream. *)
Lemma image_attached (record q : value) (img : string) :
  get record "qr_string" = Normal q -> truthy q = true ->
  get (VObj (assign "qr_image" (VStr img) (spread record))) "qr_image"
  = Normal (VStr img).
Proof.
  intros _ _. unfold get. simpl. now rewrite lookup_assign_same.
Qed.

Lemma fields_relayed (record q : value) (img : string) (k : string) :
  get record "qr_string" = Normal q -> truthy q = true -> k <> "qr_image" ->
  get (VObj (assign "qr_image" (VStr img) (spread record))) k = get record k.
Proof.
  intros Hq Htq Hk.
  destruct (truthy_qr_string_object record q Hq Htq) as [props ->].
  unfold get. simpl. now rewrite lookup_assign_other.
Qed.

Lemma get_is_get_opt (v q : value) (k : string) :
  get v k = Normal q -> get_opt v k = Normal q.
Proof.
  unfold get_opt, get. destruct (nullish v); [discriminate | auto].
Qed.

Lemma TypeError_message (v : value) (k msg : string) :
  get v k = Throw msg -> msg = TypeError_read v k.
Proof.
  unfold get. destruct (nullish v); intros H; now inversion H.
Qed.

Lemma qris_error_message (rev : revision) (E : Env) (rq : Request) (m : string) :
  dependable E -> qris_error rev E rq m -> m <> "".
Proof.
  intros HE Herr. destruct Herr.
  - eapply upstream_message; eauto.
  - eapply stream_message; eauto.
  - discriminate.
  - discriminate.
  - discriminate.
  - eapply parse_message; eauto.
  - match goal with H : get _ _ = Throw _ |- _ =>
      apply TypeError_message in H; subst end.
    discriminate.
  - destruct rev; discriminate.
  - eapply encoder_message; eauto.
Qed.

(** C1: a [POST /qris] with a positive [amount] and a non-empty [userId]
    is answered either with 200, [success:true], a non-empty PNG data URL
    under [qr_image] and the [qr_string] of the upstream record, or with
    400, [success:false] and a non-empty [error]; no answer has neither
    the image nor an error. *)
Theorem qris_image_or_error
        (rev : revision) (E : Env) (req : Req) (x : float) (u : string) :
  dependable E ->
  destructure (body req) "amount" = Normal (VNum x) -> (0 <? x)%float = true ->
  destructure (body req) "userId" = Normal (VStr u) -> u <> "" ->
  exists r rq,
    run (post_qris rev E req) = (Normal r, [rq])
    /\ (image_reply E rq r \/ error_reply r).
Proof.
  intros HE Ha Hx Hu Hne.
  assert (Hta : truthy (VNum x) = true) by now apply positive_truthy.
  assert (Htu : truthy (VStr u) = true)
    by (simpl; apply negb_true_iff, String.eqb_neq, Hne).
  destruct (post_qris_runs rev E req (VNum x) (VStr u) u Ha Hu Hta Htu
              (ToString_string E u) (fun _ => eq_refl))
    as (rq & result & b & Hrun & Hflag & _ & _ & _ & Hres).
  eexists; exists rq. split; [exact Hrun|].
  unfold image_reply, error_reply. simpl.
  destruct Hres as [rsp t res record q img Hup Hcl Hst Hparse Hdata Hq Htq Hqr | m Herr].
  - left. simpl in Hflag. inversion Hflag; subst b.
    repeat split; auto.
    exists rsp, t, res, record,
      (VObj (assign "qr_image" (VStr img) (spread record))), img.
    pose proof (encoder_data_url E HE _ _ _ Hqr) as Hurl.
    repeat split; auto.
    + now apply (image_attached record q).
    + intros ->. discriminate.
    + now apply (fields_relayed record q).
  - right. destruct (qris_failure_fields rev E m) as (Hs & He & Hd).
    rewrite Hs in Hflag. inversion Hflag; subst b.
    repeat split; auto.
    exists m. split; [exact He|]. now apply (qris_error_message rev E rq).
Qed.

Lemma sample_env_dependable (answer : Request -> completion Response) :
  (forall rq, exists st ct t,
      answer rq = Normal {| status := st; content_type := ct; stream := Normal t |}) ->
  dependable (sample_env answer).
Proof.
  intros Hanswer. split; simpl.
  - intros rq m H. destruct (Hanswer rq) as (st & ct & t & Heq). congruence.
  - intros rq rsp m H Hs. destruct (Hanswer rq) as (st & ct & t & Heq).
    rewrite Heq in H. inversion H; subst. discriminate.
  - intros t m. unfold sample_parse.
    destruct (t =? sample_text)%string; [discriminate|].
    destruct (t =? null_data_text)%string; [discriminate|].
    intros H; inversion H. discriminate.
  - intros v _ m H.
    assert (m = "No input text") as ->; [|discriminate].
    destruct v; try (now inversion H).
    destruct (s =? "")%string; now inversion H.
  - intros v _ img H.
    destruct v; try discriminate H.
    destruct (s =? "")%string; [discriminate H|].
    inversion H. simpl. now destruct s.
Qed.

Lemma qris_image_or_error_witness :
  exists r rq,
    run (post_qris Standalone
           (sample_env (answers 200 (Some "application/json; charset=utf-8") sample_text))
           {| body := VObj [("amount", VNum 10000); ("userId", VStr "abc")];
              params := []; query := [] |})
    = (Normal r, [rq])
    /\ (image_reply
          (sample_env (answers 200 (Some "application/json; charset=utf-8") sample_text))
          rq r
        \/ error_reply r).
Proof.
  apply (qris_image_or_error Standalone
           (sample_env (answers 200 (Some "application/json; charset=utf-8") sample_text))
           {| body := VObj [("amount", VNum 10000); ("userId", VStr "abc")];
              params := []; query := [] |}
           10000%float "abc").
  - apply sample_env_dependable. intros rq. now do 3 eexists.
  - reflexivity.
  - reflexivity.
  - reflexivity.
  - discriminate.
Defined.

(** ** A reply without a QR string *)

(** C6: for a request that passes the validation and whose [userId] (and,
    in the second revision, logged [amount]) has a text, one call is made;
    when its reply parses as JSON but has no truthy [data.qr_string],
    [generateQRIS] fails and the route answers 400 with [success:false] and
    a message that names the failure; and no 200 is ever sent whose [data]
    lacks a truthy [qr_string]. *)
Theorem qr_string_required
        (rev : revision) (E : Env) (req : Req) (amount userId : value) (id : string) :
  destructure (body req) "amount" = Normal amount -> truthy amount = true ->
  destructure (body req) "userId" = Normal userId -> truthy userId = true ->
  ToString E userId = Normal id ->
  (rev = Standalone -> printable E amount = true) ->
  exists r rq,
    run (post_qris rev E req) = (Normal r, [rq])
    /\ (forall rsp t result,
          upstream E rq = Normal rsp -> stream rsp = Normal t ->
          JSON_parse E t = Normal result -> lacks_qr_string result ->
          code r = 400
          /\ get (sent r) "success" = Normal (VBool false)
          /\ exists m, get (sent r) "error" = Normal (VStr m)
                       /\ shape_message rev rsp result m)
    /\ (code r = 200 ->
        exists out q, get (sent r) "data" = Normal out
                      /\ get out "qr_string" = Normal q /\ truthy q = true).
Proof.
  intros Ha Hta Hu Htu Hid Hpr.
  destruct (post_qris_runs rev E req amount userId id Ha Hu Hta Htu Hid Hpr)
    as (rq & result & b & Hrun & Hflag & _ & _ & _ & Hres).
  eexists; exists rq. split; [exact Hrun|]. simpl. split.
  - intros rsp t res Hup Hst Hparse Hlacks.
    destruct Hres as [rsp' t' res' record q img Hup' Hcl Hst' Hparse' Hdata Hq Htq Hqr
                     | m Herr].
    + same_reply.
      pose proof (Hlacks record q Hdata (get_is_get_opt _ _ _ Hq)). congruence.
    + destruct (qris_failure_fields rev E m) as (Hs & He & _).
      rewrite Hs in Hflag. inversion Hflag; subst b.
      repeat split; auto. exists m. split; [exact He|].
      unfold shape_message.
      destruct Herr; same_reply.
      * repeat split; [discriminate | congruence | auto].
      * repeat split; [discriminate | congruence | auto].
      * repeat split; [discriminate | congruence | auto].
      * match goal with H : get _ _ = Throw _ |- _ =>
          apply TypeError_message in H; subst end.
        repeat split; [discriminate | auto | congruence].
      * repeat split; [destruct rev; discriminate | auto | congruence].
      * match goal with
          Hd : get _ "data" = Normal ?rec, Hg : get ?rec "qr_string" = Normal ?q |- _ =>
            pose proof (Hlacks rec q Hd (get_is_get_opt _ _ _ Hg)) end.
        congruence.
  - intros Hcode.
    destruct Hres as [rsp t res record q img Hup Hcl Hst Hparse Hdata Hq Htq Hqr | m Herr].
    + exists (VObj (assign "qr_image" (VStr img) (spread record))), q.
      repeat split; auto.
      rewrite (fields_relayed record q img "qr_string" Hq Htq); [exact Hq | discriminate].
    + destruct (qris_failure_fields rev E m) as (Hs & _).
      rewrite Hs in Hflag. inversion Hflag; subst b. discriminate.
Qed.

Lemma qr_string_required_witness :
  exists r rq,
    run (post_qris Serverless
           (sample_env (answers 200 (Some "application/json") null_data_text))
           {| body := VObj [("amount", VNum 10000); ("userId", VStr "abc")];
              params := []; query := [] |})
    = (Normal r, [rq])
    /\ code r = 400
    /\ get (sent r) "success" = Normal (VBool false)
    /\ exists m, get (sent r) "error" = Normal (VStr m)
                 /\ shape_message Serverless
                      {| status := 200; content_type := Some "application/json";
                         stream := Normal null_data_text |}
                      (VObj [("data", VNull)]) m.
Proof.
  destruct (qr_string_required Serverless
              (sample_env (answers 200 (Some "application/json") null_data_text))
              {| body := VObj [("amount", VNum 10000); ("userId", VStr "abc")];
                 params := []; query := [] |}
              (VNum 10000) (VStr "abc") "abc"
              eq_refl eq_refl eq_refl eq_refl eq_refl (fun _ => eq_refl))
    as (r & rq & Hrun & Hshape & _).
  exists r, rq. split; [exact Hrun|].
  apply (Hshape {| status := 200; content_type := Some "application/json";
                   stream := Normal null_data_text |}
                null_data_text (VObj [("data", VNull)])).
  - reflexivity.
  - reflexivity.
  - reflexivity.
  - intros record q Hd Hq. inversion Hd; subst. inversion Hq; subst. reflexivity.
Defined.

(** C10: in every 200 of [POST /qris] the [qr_image] of [data] is the image
    encoded locally from the record's [qr_string], also when the upstream
    record brought a [qr_image] of its own, and every other key of [data]
    reads as it does in the upstream record. *)
Theorem qr_image_overrides_and_rest_relayed
        (rev : revision) (E : Env) (req : Req) (r : Reply) (tr : Trace) :
  run (post_qris rev E req) = (Normal r, tr) -> code r = 200 ->
  exists rq rsp t result record q img out,
    tr = [rq]
    /\ upstream E rq = Normal rsp /\ stream rsp = Normal t
    /\ JSON_parse E t = Normal result
    /\ get result "data" = Normal record
    /\ get record "qr_string" = Normal q
    /\ QRCode_toDataURL E q qr_options = Normal img
    /\ get (sent r) "data" = Normal out
    /\ get out "qr_image" = Normal (VStr img)
    /\ forall k, k <> "qr_image" -> get out k = get record k.
Proof.
  intros Hrun Hcode.
  destruct (post_qris_inv rev E req r tr Hrun)
    as [[-> _] | [(m & _ & -> & _)
                  | (a & u & rq & result & b & _ & _ & _ & _ & -> & -> & Hflag & Hres)]];
    [discriminate | destruct rev; discriminate |].
  destruct Hres as [rsp t res record q img Hup Hcl Hst Hparse Hdata Hq Htq Hqr | m Herr].
  - exists rq, rsp, t, res, record, q, img,
      (VObj (assign "qr_image" (VStr img) (spread record))).
    repeat split; auto.
    + now apply (image_attached record q).
    + intros k Hk. now apply (fields_relayed record q).
  - destruct (qris_failure_fields rev E m) as (Hs & _).
    rewrite Hs in Hflag. inversion Hflag; subst b. discriminate.
Qed.

Lemma qr_image_overrides_and_rest_relayed_witness :
  exists rq rsp t result record q img out,
    [{| url := "https://backend.saweria.co/donations/abc";
        method := "POST";
        headers := (V1.browser_headers
                    ++ [("Content-Type", VStr "application/json")])%list;
        payload := Some (sample_stringify (donation (VNum 10000))) |}] = [rq]
    /\ upstream tagged_env rq = Normal rsp /\ stream rsp = Normal t
    /\ JSON_parse tagged_env t = Normal result
    /\ get result "data" = Normal record
    /\ get record "qr_string" = Normal q
    /\ QRCode_toDataURL tagged_env q qr_options = Normal img
    /\ get (VObj [("success", VBool true);
                  ("data", VObj [("id", VStr "d2");
                                 ("qr_image", VStr "data:image/png;base64,00020101");
                                 ("qr_string", VStr "00020101")])]) "data"
       = Normal out
    /\ get out "qr_image" = Normal (VStr img)
    /\ forall k, k <> "qr_image" -> get out k = get record k.
Proof.
  apply (qr_image_overrides_and_rest_relayed Serverless tagged_env
           {| body := VObj [("amount", VNum 10000); ("userId", VStr "abc")];
              params := []; query := [] |}
           {| code := 200;
              sent := VObj [("success", VBool true);
                            ("data", VObj [("id", VStr "d2");
                                           ("qr_image", VStr "data:image/png;base64,00020101");
                                           ("qr_string", VStr "00020101")])] |}).
  - reflexivity.
  - reflexivity.
Defined.

(** ** Payment status *)

(** C2, as the code has it: when the reply to the status call parses and
    its [data] is truthy, the route answers 200 with the status computed
    from [data.qr_string] alone ([PENDING] when it is truthy, [PAID] when
    it is empty, [null] or absent) and with [data] itself, untouched, under
    [data]. *)
Theorem status_derived_from_qr_string (rev : revision) (E : Env) (req : Req) :
  exists r rq,
    run (get_status rev E req) = (Normal r, [rq])
    /\ (forall rsp t result record,
          upstream E rq = Normal rsp -> stream rsp = Normal t ->
          JSON_parse E t = Normal result ->
          get result "data" = Normal record -> truthy record = true ->
          exists q,
            get record "qr_string" = Normal q
            /\ r = {| code := 200;
                      sent := VObj [("success", VBool true);
                                    ("status", VStr (payment_status q));
                                    ("data", record)] |}
            /\ (truthy q = true -> payment_status q = "PENDING")
            /\ (truthy q = false -> payment_status q = "PAID")
            /\ (lookup "qr_string" (own record) = None -> payment_status q = "PAID"))
    /\ payment_status (VStr "") = "PAID"
    /\ payment_status VNull = "PAID"
    /\ payment_status VUndefined = "PAID".
Proof.
  destruct (get_status_runs rev E req)
    as (rq & result & b & id & Hrun & Hflag & _ & _ & _ & Hres).
  eexists; exists rq. split; [exact Hrun|]. split; [|now repeat split].
  intros rsp t res record Hup Hst Hparse Hdata Htr.
  destruct Hres as [rsp' t' res' record' q Hup' Hst' Hparse' Hdata' Htr' Hq | m Herr].
  - same_reply. exists q. simpl in Hflag. inversion Hflag; subst b.
    repeat split; auto; unfold payment_status.
    + now intros ->.
    + now intros ->.
    + intros Hnone. unfold get in Hq. rewrite (truthy_not_nullish _ Htr), Hnone in Hq.
      now inversion Hq.
  - destruct Herr; same_reply.
Qed.

Lemma status_derived_from_qr_string_witness :
  exists q,
    get sample_record "qr_string" = Normal q
    /\ {| code := 200;
          sent := VObj [("success", VBool true); ("status", VStr "PENDING");
                        ("data", sample_record)] |}
       = {| code := 200;
            sent := VObj [("success", VBool true);
                          ("status", VStr (payment_status q));
                          ("data", sample_record)] |}
    /\ (truthy q = true -> payment_status q = "PENDING")
    /\ (truthy q = false -> payment_status q = "PAID")
    /\ (lookup "qr_string" (own sample_record) = None -> payment_status q = "PAID").
Proof.
  destruct (status_derived_from_qr_string Standalone
              (sample_env (answers 200 (Some "application/json") sample_text))
              {| body := VObj []; params := [("donationId", "d1")]; query := [] |})
    as (r & rq & Hrun & Hstatus & _).
  inversion Hrun; subst r rq.
  apply (Hstatus {| status := 200; content_type := Some "application/json";
                    stream := Normal sample_text |}
                 sample_text (VObj [("data", sample_record)]) sample_record);
    reflexivity.
Defined.

(** C2, as stated, fails: a reply whose [data] field is present but [null]
    is answered with 400 and no status at all, in both revisions. *)
Lemma status_missing_for_null_data :
  JSON_parse (sample_env (answers 200 (Some "application/json") null_data_text))
             null_data_text
  = Normal (VObj [("data", VNull)])
  /\ lookup "data" (own (VObj [("data", VNull)])) = Some VNull
  /\ fst (run (get_status Serverless
                 (sample_env (answers 200 (Some "application/json") null_data_text))
                 {| body := VObj []; params := [("donationId", "d1")]; query := [] |}))
     = Normal {| code := 400; sent := failure "Invalid response structure" |}
  /\ fst (run (get_status Standalone
                 (sample_env (answers 200 (Some "application/json") null_data_text))
                 {| body := VObj []; params := [("donationId", "d1")]; query := [] |}))
     = Normal {| code := 400; sent := failure "Invalid response structure" |}
  /\ get (failure "Invalid response structure") "status" = Normal VUndefined
  /\ get (failure "Invalid response structure") "data" = Normal VUndefined.
Proof. repeat split; reflexivity. Qed.

(** ** Balance *)

(** The text that the second revision puts behind [Bearer]. *)
Lemma token_text (rev : revision) (E : Env) (token : value) :
  (rev = Standalone -> printable E token = true) ->
  exists bearer, rev = Standalone -> ToString E token = Normal bearer.
Proof.
  intros Hpr. destruct rev.
  - exists "". discriminate.
  - destruct (printable_text E token (Hpr eq_refl)) as [s Hs]. now exists s.
Qed.

(** C4, as the code has it: for a truthy token (one that has a text, where
    the second revision puts it behind [Bearer]) one call is made, and when
    the body of its reply is not JSON, [GET /balance] answers 400 with
    [success:false] and, as [error], the message of the parse failure;
    neither the upstream status nor the content of the body is looked
    at. *)
Theorem balance_non_json_reports_parse_error
        (rev : revision) (E : Env) (req : Req) :
  truthy (field (query req) "token") = true ->
  (rev = Standalone -> printable E (field (query req) "token") = true) ->
  exists r rq,
    run (get_balance rev E req) = (Normal r, [rq])
    /\ forall rsp t m,
         upstream E rq = Normal rsp -> stream rsp = Normal t ->
         JSON_parse E t = Throw m ->
         r = {| code := 400;
                sent := VObj [("success", VBool false); ("error", VStr m)] |}.
Proof.
  intros Htok Hpr.
  destruct (token_text rev E (field (query req) "token") Hpr) as [bearer Hb].
  destruct (get_balance_runs rev E req bearer Htok Hb)
    as (rq & result & b & Hrun & Hflag & _ & _ & _ & Hres).
  eexists; exists rq. split; [exact Hrun|].
  intros rsp t m Hup Hst Hparse.
  destruct Hres as [rsp' t' res' record' Hup' Hst' Hparse' Hdata' Htr' | m' Herr].
  - same_reply.
  - simpl in Hflag. inversion Hflag; subst b.
    destruct Herr; same_reply.
    rewrite Hparse in *.
    match goal with H : Throw _ = Throw _ |- _ => inversion H; subst end.
    reflexivity.
Qed.

Lemma balance_non_json_reports_parse_error_witness :
  {| code := 400; sent := failure "Unexpected token < in JSON at position 0" |}
  = {| code := 400;
       sent := VObj [("success", VBool false);
                     ("error", VStr "Unexpected token < in JSON at position 0")] |}.
Proof.
  destruct (balance_non_json_reports_parse_error Standalone
              (sample_env (answers 403 (Some "text/html") html_text))
              {| body := VObj []; params := []; query := [("token", VStr "abc")] |}
              eq_refl (fun _ => eq_refl))
    as (r & rq & Hrun & Hparse).
  inversion Hrun; subst r rq.
  apply (Hparse {| status := 403; content_type := Some "text/html";
                   stream := Normal html_text |}
                html_text "Unexpected token < in JSON at position 0");
    reflexivity.
Defined.

(** C4, as stated, fails: for an HTML body the error is the parser's
    message, not [API returned non-JSON response: 403]; and for a body with
    the Cloudflare markers it is not the Cloudflare message either. *)
Lemma balance_html_not_classified :
  includes html_text "cloudflare" || includes html_text "cf-ray" = false
  /\ fst (run (get_balance Serverless
                 (sample_env (answers 403 (Some "text/html") html_text))
                 {| body := VObj []; params := []; query := [("token", VStr "abc")] |}))
     = Normal {| code := 400; sent := failure "Unexpected token < in JSON at position 0" |}
  /\ fst (run (get_balance Standalone
                 (sample_env (answers 403 (Some "text/html") html_text))
                 {| body := VObj []; params := []; query := [("token", VStr "abc")] |}))
     = Normal {| code := 400; sent := failure "Unexpected token < in JSON at position 0" |}
  /\ "Unexpected token < in JSON at position 0" <> non_json_message 403
  /\ includes challenge_text "cloudflare" = true
  /\ fst (run (get_balance Standalone
                 (sample_env (answers 403 (Some "text/html") challenge_text))
                 {| body := VObj []; params := []; query := [("token", VStr "abc")] |}))
     = Normal {| code := 400; sent := failure "Unexpected token < in JSON at position 0" |}
  /\ "Unexpected token < in JSON at position 0" <> cloudflare_message.
Proof. repeat split; try reflexivity; discriminate. Qed.

(** The [Authorization] header of the balance call. *)
Lemma balance_authorization (rev : revision) (E : Env) (req : Req) (bearer : string) :
  truthy (field (query req) "token") = true ->
  ToString E (field (query req) "token") = Normal bearer ->
  exists r rq,
    run (get_balance rev E req) = (Normal r, [rq])
    /\ url rq = "https://backend.saweria.co/donations/balance"
    /\ header "Authorization" (headers rq)
       = Some (authorization rev (field (query req) "token") bearer).
Proof.
  intros Htok Hb.
  destruct (get_balance_runs rev E req bearer Htok (fun _ => Hb))
    as (rq & result & b & Hrun & _ & Hurl & _ & Hauth & _).
  eexists; exists rq. repeat split; eauto.
Qed.

(** C8: with [token=abc] the first revision sends [Authorization: abc],
    the token alone and no [Bearer] scheme, where the second revision
    sends [Authorization: Bearer abc]. *)
Theorem balance_token_sent_without_bearer_scheme :
  (exists r rq,
      run (get_balance Serverless (sample_env (answers 200 (Some "application/json") sample_text))
             {| body := VObj []; params := []; query := [("token", VStr "abc")] |})
      = (Normal r, [rq])
      /\ header "Authorization" (headers rq) = Some (VStr "abc")
      /\ String.prefix "Bearer " "abc" = false)
  /\ (exists r rq,
         run (get_balance Standalone (sample_env (answers 200 (Some "application/json") sample_text))
                {| body := VObj []; params := []; query := [("token", VStr "abc")] |})
         = (Normal r, [rq])
         /\ header "Authorization" (headers rq) = Some (VStr "Bearer abc")).
Proof.
  split; do 2 eexists; repeat split; reflexivity.
Qed.


(** * Further properties of the relay *)

(** ** Outbound calls *)

Lemma handle_trace (rev : revision) (ep : endpoint) (E : Env) (req : Req) :
  snd (run (handle rev ep E req)) = []
  \/ exists rq, snd (run (handle rev ep E req)) = [rq].
Proof.
  destruct ep; simpl.
  - destruct (post_qris_cases rev E req) as (c & tr & Hrun & Hcase).
    rewrite Hrun. destruct Hcase; simpl; eauto.
  - destruct (get_status_runs rev E req) as (rq & res & b & id & Hrun & _).
    rewrite Hrun. right. now exists rq.
  - destruct (get_balance_cases rev E req)
      as [Hrun | [(m & _ & _ & _ & Hrun) | (rq & res & b & s & _ & _ & Hrun & _)]];
      rewrite Hrun; simpl; eauto.
Qed.

Lemma get_root_trace (rev : revision) (P : Process) (E : Env) (req : Req) :
  snd (run (get_root rev P E req)) = [].
Proof.
  destruct rev; [reflexivity|].
  unfold run, get_root, bind, lift, respond, ret.
  now destruct (ToString E (port P)).
Qed.

Lemma route_trace (rev : revision) (P : Process) (E : Env) (t : target) (req : Req) :
  (length (snd (run (route rev P E t req))) <= 1)%nat.
Proof.
  destruct t as [|ep]; simpl.
  - rewrite get_root_trace. simpl. lia.
  - destruct (handle_trace rev ep E req) as [H|[rq H]]; rewrite H; simpl; lia.
Qed.

(** What the router hands on is what the route made of the request. *)
Lemma router_trace (rev : revision) (P : Process) (E : Env) (inc : Incoming)
      (h : list (string * string)) :
  snd (run (router rev P E inc h))
  = match matched inc with
    | Some t => if serves t (verb inc)
                then snd (run (route rev P E t (request inc))) else []
    | None => []
    end.
Proof.
  unfold run, router, bind, ret.
  destruct (matched inc) as [t|]; [|reflexivity].
  destruct (serves t (verb inc)); [|reflexivity].
  now destruct (route rev P E t (request inc) []) as [[r|m] tr].
Qed.

Lemma app_trace (rev : revision) (P : Process) (E : Env) (inc : Incoming) :
  snd (run (app rev P E inc))
  = match parser inc, matched inc with
    | Parsed, Some t =>
        if negb (verb inc =? "OPTIONS")%string && serves t (verb inc)
        then snd (run (route rev P E t (request inc))) else []
    | _, _ => []
    end.
Proof.
  unfold app. destruct (parser inc); [|reflexivity].
  unfold cors. cbv zeta.
  destruct (verb inc =? "OPTIONS")%string; simpl.
  - now destruct (matched inc).
  - apply router_trace.
Qed.

(** X1: no request, whatever its method, route, revision and platform,
    makes more than one call to [fetch]: nothing is retried. *)
Theorem at_most_one_outbound_call
        (rev : revision) (P : Process) (E : Env) (inc : Incoming) :
  (length (snd (run (app rev P E inc))) <= 1)%nat.
Proof.
  rewrite app_trace.
  destruct (parser inc); [|simpl; lia].
  destruct (matched inc) as [t|]; [|simpl; lia].
  destruct (negb (verb inc =? "OPTIONS")%string && serves t (verb inc));
    [apply route_trace | simpl; lia].
Qed.

(** X2: once the body is parsed, [POST /qris] calls [fetch] exactly when
    [amount] and [userId] are both truthy, [userId] has a text to put into
    the URL and, in the second revision, [amount] has one to log. *)
Theorem qris_called_iff_both_truthy
        (rev : revision) (E : Env) (req : Req) (amount userId : value) :
  destructure (body req) "amount" = Normal amount ->
  destructure (body req) "userId" = Normal userId ->
  (snd (run (post_qris rev E req)) <> []
   <-> truthy amount = true /\ truthy userId = true
       /\ printable E userId = true
       /\ (rev = Standalone -> printable E amount = true)).
Proof.
  intros Ha Hu.
  destruct (post_qris_cases rev E req) as (c & tr & Hrun & Hcase).
  rewrite Hrun. simpl.
  assert (Hb : nullish (body req) = false).
  { unfold destructure in Ha. destruct (nullish (body req)); [discriminate | reflexivity]. }
  destruct Hcase as [m Hn | a u Ha' Hu' Hf | a u m Ha' Hu' Hta Htu Hm
                    | a u id m Ha' Hu' Hta Htu Hid Hrev Hm
                    | a u id rq result b Ha' Hu' Hta Htu Hid Hpr];
    try (rewrite Ha in Ha'; inversion Ha'; subst a);
    try (rewrite Hu in Hu'; inversion Hu'; subst u).
  - congruence.
  - split; [intros H; now elim H|].
    intros (Hta & Htu & _). destruct Hf; congruence.
  - split; [intros H; now elim H|].
    intros (_ & _ & Hp & _). unfold printable in Hp. rewrite Hm in Hp. discriminate.
  - split; [intros H; now elim H|].
    intros (_ & _ & _ & Hp). specialize (Hp Hrev).
    unfold printable in Hp. rewrite Hm in Hp. discriminate.
  - split; [|discriminate].
    intros _. repeat split; auto.
    unfold printable. now rewrite Hid.
Qed.

Lemma qris_called_iff_both_truthy_witness :
  (snd (run (post_qris Serverless (sample_env (answers 200 None ""))
               {| body := VObj [("amount", VNum 5); ("userId", VArr [])];
                  params := []; query := [] |})) <> []
   <-> truthy (VNum 5) = true /\ truthy (VArr []) = true
       /\ printable (sample_env (answers 200 None "")) (VArr []) = true
       /\ (Serverless = Standalone
           -> printable (sample_env (answers 200 None "")) (VNum 5) = true))
  /\ (snd (run (post_qris Standalone (sample_env (answers 200 None ""))
                  {| body := VObj [("amount", VObj [("toString", VNum 1)]);
                                   ("userId", VStr "abc")];
                     params := []; query := [] |})) <> []
      <-> truthy (VObj [("toString", VNum 1)]) = true /\ truthy (VStr "abc") = true
          /\ printable (sample_env (answers 200 None "")) (VStr "abc") = true
          /\ (Standalone = Standalone
              -> printable (sample_env (answers 200 None ""))
                   (VObj [("toString", VNum 1)]) = true)).
Proof.
  split.
  - apply (qris_called_iff_both_truthy Serverless (sample_env (answers 200 None ""))
             {| body := VObj [("amount", VNum 5); ("userId", VArr [])];
                params := []; query := [] |});
      reflexivity.
  - apply (qris_called_iff_both_truthy Standalone (sample_env (answers 200 None ""))
             {| body := VObj [("amount", VObj [("toString", VNum 1)]);
                              ("userId", VStr "abc")];
                params := []; query := [] |});
      reflexivity.
Defined.

(** X3: [GET /balance] calls [fetch] exactly when the [token] of the query
    is truthy and, in the second revision, has a text to put behind
    [Bearer]; an empty [token=] is refused like a missing one, with the
    same 400 and no call. *)
Theorem balance_called_iff_token_truthy (rev : revision) (E : Env) (req : Req) :
  (snd (run (get_balance rev E req)) <> []
   <-> truthy (field (query req) "token") = true
       /\ (rev = Standalone -> printable E (field (query req) "token") = true))
  /\ (lookup "token" (query req) = Some (VStr "") ->
      run (get_balance rev E req)
      = (Normal {| code := 400;
                   sent := VObj [("success", VBool false);
                                 ("error", VStr "Token is required")] |},
         [])).
Proof.
  split.
  - destruct (truthy (field (query req) "token")) eqn:Htok.
    + destruct rev.
      * destruct (get_balance_runs Serverless E req "" Htok)
          as (rq & res & b & Hrun & _); [discriminate|].
        rewrite Hrun. simpl. split; [|discriminate].
        intros _. split; [reflexivity | discriminate].
      * destruct (ToString E (field (query req) "token")) as [s|m] eqn:Hs.
        -- destruct (get_balance_runs Standalone E req s Htok (fun _ => Hs))
             as (rq & res & b & Hrun & _).
           rewrite Hrun. simpl. split; [|discriminate].
           intros _. split; [reflexivity|].
           intros _. unfold printable. now rewrite Hs.
        -- rewrite (get_balance_unprinted E req m Htok Hs). simpl.
           split; [intros H; now elim H|].
           intros [_ Hp]. specialize (Hp eq_refl). unfold printable in Hp.
           rewrite Hs in Hp. discriminate.
    + rewrite (get_balance_rejects rev E req Htok). simpl.
      split; [intros H; now elim H|]. intros [H _]. discriminate.
  - intros Hq. apply get_balance_rejects. unfold field. now rewrite Hq.
Qed.

Lemma balance_called_iff_token_truthy_witness :
  run (get_balance Standalone (sample_env (answers 200 None ""))
         {| body := VObj []; params := []; query := [("token", VStr "")] |})
  = (Normal {| code := 400;
               sent := VObj [("success", VBool false);
                             ("error", VStr "Token is required")] |},
     []).
Proof.
  apply (proj2 (balance_called_iff_token_truthy Standalone
                  (sample_env (answers 200 None ""))
                  {| body := VObj []; params := [];
                     query := [("token", VStr "")] |})).
  reflexivity.
Defined.

(** ** Failures reported with their own message *)

(** A reply that follows an outbound call is the envelope of the client
    function, with the status read off its flag. *)
Lemma handle_inv (rev : revision) (ep : endpoint) (E : Env) (req : Req)
      (r : Reply) (rq : Request) :
  run (handle rev ep E req) = (Normal r, [rq]) ->
  exists result (b : bool),
    r = {| code := if b then 200 else 400; sent := result |}
    /\ get result "success" = Normal (VBool b)
    /\ outcome rev ep E rq result.
Proof.
  intros Hrun. destruct ep; simpl in *.
  - destruct (post_qris_inv rev E req r [rq] Hrun)
      as [[_ Habs] | [(m & _ & _ & Habs)
         | (a & u & rq' & result & b & _ & _ & _ & _ & -> & Htr & Hflag & Hres)]];
      [discriminate | discriminate |].
    inversion Htr; subst rq'. now exists result, b.
  - destruct (get_status_runs rev E req)
      as (rq' & result & b & id & Hrun' & Hflag & _ & _ & _ & Hres).
    rewrite Hrun' in Hrun. inversion Hrun; subst. now exists result, b.
  - destruct (get_balance_cases rev E req)
      as [Hrun' | [(m & _ & _ & _ & Hrun')
         | (rq' & result & b & s & _ & _ & Hrun' & Hflag & _ & _ & _ & Hres)]];
      rewrite Hrun' in Hrun; [discriminate | discriminate |].
    inversion Hrun; subst. now exists result, b.
Qed.

(** The reply built from a failure envelope. *)
Lemma failed_reply (rev : revision) (E : Env) (result : value) (b : bool) (m : string) :
  result = failure m \/ result = qris_failure rev E m ->
  get result "success" = Normal (VBool b) ->
  code {| code := if b then 200 else 400; sent := result |} = 400
  /\ get result "success" = Normal (VBool false)
  /\ get result "error" = Normal (VStr m).
Proof.
  intros Hres Hflag.
  assert (Hf : get result "success" = Normal (VBool false)
               /\ get result "error" = Normal (VStr m)).
  { destruct Hres as [-> | ->]; [now split|].
    destruct (qris_failure_fields rev E m) as (Hs & He & _). now split. }
  destruct Hf as [Hs He]. rewrite Hs in Hflag. inversion Hflag; subst b.
  now repeat split.
Qed.

(** X4: when the call to the platform fails, or the body of its reply
    cannot be read, every route answers 400 with [success:false] and, as
    [error], the very message of that failure. *)
Theorem transport_failure_relayed
        (rev : revision) (ep : endpoint) (E : Env) (req : Req)
        (r : Reply) (rq : Request) (m : string) :
  run (handle rev ep E req) = (Normal r, [rq]) ->
  upstream E rq = Throw m
  \/ (exists rsp, upstream E rq = Normal rsp /\ stream rsp = Throw m) ->
  code r = 400
  /\ get (sent r) "success" = Normal (VBool false)
  /\ get (sent r) "error" = Normal (VStr m).
Proof.
  intros Hrun Hfail.
  destruct (handle_inv rev ep E req r rq Hrun) as (result & b & -> & Hflag & Hout).
  simpl sent.
  destruct Hfail as [Hup | (rsp & Hup & Hst)];
    destruct ep; simpl in Hout; destruct Hout as [|m' Herr]; same_outcome;
    destruct Herr; same_outcome;
    (eapply (failed_reply rev E); [|eassumption]; auto).
Qed.

Lemma transport_failure_relayed_witness :
  code {| code := 400; sent := failure "request failed, reason: ENOTFOUND" |} = 400
  /\ get (failure "request failed, reason: ENOTFOUND") "success" = Normal (VBool false)
  /\ get (failure "request failed, reason: ENOTFOUND") "error"
     = Normal (VStr "request failed, reason: ENOTFOUND").
Proof.
  apply (transport_failure_relayed Serverless GetStatus
           (sample_env (fun _ => Throw "request failed, reason: ENOTFOUND"))
           {| body := VObj []; params := [("donationId", "d1")]; query := [] |}
           {| code := 400; sent := failure "request failed, reason: ENOTFOUND" |}
           {| url := "https://backend.saweria.co/donations/qris/d1";
              method := "GET";
              headers := (V1.browser_headers
                          ++ [("Content-Type", VStr "application/json")])%list;
              payload := None |}).
  - reflexivity.
  - left. reflexivity.
Defined.

(** X5: when the body of the platform's reply is not valid JSON, every
    route that parses it answers 400 with [success:false] and the parser's
    message as [error]; the second revision of [POST /qris] parses only a
    reply whose content type names JSON. *)
Theorem malformed_json_relayed
        (rev : revision) (ep : endpoint) (E : Env) (req : Req)
        (r : Reply) (rq : Request) (rsp : Response) (t m : string) :
  run (handle rev ep E req) = (Normal r, [rq]) ->
  upstream E rq = Normal rsp -> stream rsp = Normal t ->
  JSON_parse E t = Throw m ->
  (ep = PostQris -> classified rev rsp = false) ->
  code r = 400
  /\ get (sent r) "success" = Normal (VBool false)
  /\ get (sent r) "error" = Normal (VStr m).
Proof.
  intros Hrun Hup Hst Hparse Hcl.
  destruct (handle_inv rev ep E req r rq Hrun) as (result & b & -> & Hflag & Hout).
  simpl sent.
  destruct ep; simpl in Hout; destruct Hout as [|m' Herr]; same_outcome;
    try specialize (Hcl eq_refl);
    destruct Herr; same_outcome;
    (eapply (failed_reply rev E); [|eassumption]; auto).
Qed.

Lemma malformed_json_relayed_witness :
  code {| code := 400; sent := failure "Unexpected token < in JSON at position 0" |} = 400
  /\ get (failure "Unexpected token < in JSON at position 0") "success"
     = Normal (VBool false)
  /\ get (failure "Unexpected token < in JSON at position 0") "error"
     = Normal (VStr "Unexpected token < in JSON at position 0").
Proof.
  apply (malformed_json_relayed Serverless PostQris
           (sample_env (answers 502 (Some "text/html") html_text))
           {| body := VObj [("amount", VNum 10000); ("userId", VStr "abc")];
              params := []; query := [] |}
           {| code := 400; sent := failure "Unexpected token < in JSON at position 0" |}
           {| url := "https://backend.saweria.co/donations/abc";
              method := "POST";
              headers := (V1.browser_headers
                          ++ [("Content-Type", VStr "application/json")])%list;
              payload := Some (sample_stringify (donation (VNum 10000))) |}
           {| status := 502; content_type := Some "text/html"; stream := Normal html_text |}
           html_text);
    reflexivity.
Defined.

(** X6: when the platform created the donation but the QR encoder rejects
    its [qr_string], [POST /qris] answers 400 with the encoder's message,
    although the call has been made. *)
Theorem encoder_failure_relayed
        (rev : revision) (E : Env) (req : Req) (r : Reply) (tr : Trace)
        (rq : Request) (rsp : Response) (t m : string) (result record q : value) :
  run (post_qris rev E req) = (Normal r, tr) -> tr = [rq] ->
  upstream E rq = Normal rsp -> classified rev rsp = false ->
  stream rsp = Normal t -> JSON_parse E t = Normal result ->
  get result "data" = Normal record -> get record "qr_string" = Normal q ->
  truthy q = true ->
  QRCode_toDataURL E q qr_options = Throw m ->
  code r = 400
  /\ get (sent r) "success" = Normal (VBool false)
  /\ get (sent r) "error" = Normal (VStr m)
  /\ get (sent r) "data" = Normal VUndefined.
Proof.
  intros Hrun -> Hup Hcl Hst Hparse Hdata Hq Htq Hqr.
  destruct (handle_inv rev PostQris E req r rq Hrun) as (result' & b & -> & Hflag & Hout).
  simpl sent. simpl in Hout.
  destruct Hout as [|m' Herr]; same_outcome.
  assert (Hm : m' = m).
  { destruct Herr; same_outcome; try reflexivity.
    match goal with
      Hg : get_opt _ "qr_string" = Normal _ |- _ =>
        rewrite (get_is_get_opt _ _ _ Hq) in Hg; inversion Hg; subst end.
    congruence. }
  subst m'.
  destruct (qris_failure_fields rev E m) as (Hs & He & Hd).
  rewrite Hs in Hflag. inversion Hflag; subst b. now repeat split.
Qed.

Lemma encoder_failure_relayed_witness :
  code {| code := 400;
          sent := failure "The amount of data is too big to be stored in a QR Code" |}
  = 400
  /\ get (failure "The amount of data is too big to be stored in a QR Code") "success"
     = Normal (VBool false)
  /\ get (failure "The amount of data is too big to be stored in a QR Code") "error"
     = Normal (VStr "The amount of data is too big to be stored in a QR Code")
  /\ get (failure "The amount of data is too big to be stored in a QR Code") "data"
     = Normal VUndefined.
Proof.
  apply (encoder_failure_relayed Serverless oversize_env
           {| body := VObj [("amount", VNum 10000); ("userId", VStr "abc")];
              params := []; query := [] |}
           {| code := 400;
              sent := failure "The amount of data is too big to be stored in a QR Code" |}
           [{| url := "https://backend.saweria.co/donations/abc";
               method := "POST";
               headers := (V1.browser_headers
                          ++ [("Content-Type", VStr "application/json")])%list;
               payload := Some (sample_stringify (donation (VNum 10000))) |}]
           {| url := "https://backend.saweria.co/donations/abc";
              method := "POST";
              headers := (V1.browser_headers
                          ++ [("Content-Type", VStr "application/json")])%list;
              payload := Some (sample_stringify (donation (VNum 10000))) |}
           {| status := 200; content_type := Some "application/json";
              stream := Normal sample_text |}
           sample_text "The amount of data is too big to be stored in a QR Code"
           (VObj [("data", sample_record)]) sample_record (VStr "00020101"));
    reflexivity.
Defined.

(** ** Balance and status envelopes *)

(** X7: when the reply to the balance call parses and its [data] is truthy,
    [GET /balance] answers 200 with [success:true] and that [data],
    untouched, under [balance]. *)
Theorem balance_relayed
        (rev : revision) (E : Env) (req : Req) (r : Reply) (rq : Request)
        (rsp : Response) (t : string) (result record : value) :
  run (get_balance rev E req) = (Normal r, [rq]) ->
  upstream E rq = Normal rsp -> stream rsp = Normal t ->
  JSON_parse E t = Normal result ->
  get result "data" = Normal record -> truthy record = true ->
  r = {| code := 200;
         sent := VObj [("success", VBool true); ("balance", record)] |}.
Proof.
  intros Hrun Hup Hst Hparse Hdata Htr.
  destruct (handle_inv rev GetBalance E req r rq Hrun) as (result' & b & -> & Hflag & Hout).
  simpl in Hout. destruct Hout as [|m Herr]; same_outcome.
  - simpl in Hflag. inversion Hflag; subst b. reflexivity.
  - destruct Herr; same_outcome.
Qed.

Lemma balance_relayed_witness :
  {| code := 200;
     sent := VObj [("success", VBool true); ("balance", sample_record)] |}
  = {| code := 200;
       sent := VObj [("success", VBool true); ("balance", sample_record)] |}.
Proof.
  apply (balance_relayed Standalone
           (sample_env (answers 200 (Some "application/json") sample_text))
           {| body := VObj []; params := []; query := [("token", VStr "abc")] |}
           _
           {| url := "https://backend.saweria.co/donations/balance";
              method := "GET";
              headers := [("Accept", VStr "application/json");
                          ("Origin", VStr "https://saweria.co");
                          ("Referer", VStr "https://saweria.co/");
                          ("User-Agent",
                           VStr "Mozilla/5.0 (Windows NT 10.0; Win64; x64) AppleWebKit/537.36");
                          ("Authorization", VStr "Bearer abc")];
              payload := None |}
           {| status := 200; content_type := Some "application/json";
              stream := Normal sample_text |}
           sample_text (VObj [("data", sample_record)]) sample_record);
    reflexivity.
Defined.

(** X8: a parsed reply without a truthy [data] makes [GET /status] answer
    400 with [Invalid response structure] and [GET /balance] answer 400
    with [Failed to fetch balance]; when the parsed reply itself is [null],
    the error is the engine's message for the failed read of [data]. *)
Theorem data_required
        (rev : revision) (E : Env) (req : Req) (r : Reply) (rq : Request)
        (rsp : Response) (t : string) (result : value) :
  upstream E rq = Normal rsp -> stream rsp = Normal t ->
  JSON_parse E t = Normal result ->
  (forall record, get result "data" = Normal record -> truthy record = false) ->
  (run (get_status rev E req) = (Normal r, [rq]) ->
   r = {| code := 400;
          sent := failure (if nullish result then TypeError_read result "data"
                           else "Invalid response structure") |})
  /\ (run (get_balance rev E req) = (Normal r, [rq]) ->
      r = {| code := 400;
             sent := failure (if nullish result then TypeError_read result "data"
                              else "Failed to fetch balance") |}).
Proof.
  intros Hup Hst Hparse Hfalsy.
  assert (Hmsg : forall shape m,
             data_error E rq shape m ->
             m = if nullish result then TypeError_read result "data" else shape).
  { intros shape m Herr. destruct Herr; same_outcome.
    - match goal with H : get _ _ = Throw _ |- _ =>
        pose proof (TypeError_message _ _ _ H) as Hm; unfold get in H end.
      match goal with |- context [nullish ?x] => destruct (nullish x) end;
        [exact Hm | discriminate].
    - match goal with H : get _ _ = Normal _ |- _ => unfold get in H end.
      match goal with |- context [nullish ?x] => destruct (nullish x) end;
        [discriminate | reflexivity]. }
  split; intros Hrun.
  - destruct (handle_inv rev GetStatus E req r rq Hrun) as (res & b & -> & Hflag & Hout).
    simpl in Hout. destruct Hout as [rsp' t' res' record q Hup' Hst' Hp' Hd' Htr' Hq|m Herr].
    + same_outcome. rewrite (Hfalsy _ Hd') in Htr'. discriminate.
    + simpl in Hflag. inversion Hflag; subst b. now rewrite (Hmsg _ _ Herr).
  - destruct (handle_inv rev GetBalance E req r rq Hrun) as (res & b & -> & Hflag & Hout).
    simpl in Hout. destruct Hout as [rsp' t' res' record Hup' Hst' Hp' Hd' Htr'|m Herr].
    + same_outcome. rewrite (Hfalsy _ Hd') in Htr'. discriminate.
    + simpl in Hflag. inversion Hflag; subst b. now rewrite (Hmsg _ _ Herr).
Qed.

Lemma data_required_witness :
  {| code := 400; sent := failure "Invalid response structure" |}
  = {| code := 400;
       sent := failure (if nullish (VObj [("data", VNull)])
                        then TypeError_read (VObj [("data", VNull)]) "data"
                        else "Invalid response structure") |}.
Proof.
  assert (Hfalsy : forall record,
             get (VObj [("data", VNull)]) "data" = Normal record ->
             truthy record = false)
    by (intros record H; inversion H; reflexivity).
  apply (proj1 (data_required Serverless
                  (sample_env (answers 200 (Some "application/json") null_data_text))
                  {| body := VObj []; params := [("donationId", "d1")]; query := [] |}
                  {| code := 400; sent := failure "Invalid response structure" |}
                  {| url := "https://backend.saweria.co/donations/qris/d1";
                     method := "GET";
                     headers := (V1.browser_headers
                                 ++ [("Content-Type", VStr "application/json")])%list;
                     payload := None |}
                  {| status := 200; content_type := Some "application/json";
                     stream := Normal null_data_text |}
                  null_data_text (VObj [("data", VNull)])
                  eq_refl eq_refl eq_refl
                  Hfalsy)).
  reflexivity.
Defined.


(** ** The content-type check of the second revision *)

Lemma prefix_empty (s : string) : String.prefix "" s = true.
Proof. now destruct s. Qed.

Lemma prefix_append (n rest : string) : String.prefix n (n ++ rest) = true.
Proof.
  induction n as [|c n IH]; simpl.
  - apply prefix_empty.
  - destruct (ascii_dec c c); [exact IH | congruence].
Qed.

Lemma prefix_split (n s : string) :
  String.prefix n s = true -> exists rest, s = n ++ rest.
Proof.
  revert s. induction n as [|c n IH]; intros s H.
  - now exists s.
  - destruct s as [|d s]; simpl in H; [discriminate|].
    destruct (ascii_dec c d) as [->|]; [|discriminate].
    destruct (IH s H) as [rest ->]. now exists rest.
Qed.

Lemma includes_prefix (s needle : string) :
  String.prefix needle s = true -> includes s needle = true.
Proof.
  intros H. destruct s; cbn [includes]; now rewrite H.
Qed.

(** [includes] decides the occurrence of a substring. *)
Lemma includes_contains (s needle : string) :
  includes s needle = true <-> contains s needle.
Proof.
  unfold contains. split.
  - induction s as [|c s IH]; cbn [includes].
    + destruct (String.prefix needle "") eqn:Hp; [|intros Habs; discriminate Habs].
      intros _. destruct (prefix_split _ _ Hp) as [rest Hrest].
      now exists "", rest.
    + destruct (String.prefix needle (String c s)) eqn:Hp.
      * intros _. destruct (prefix_split _ _ Hp) as [rest Hrest].
        now exists "", rest.
      * intros H. destruct (IH H) as (before & after & ->).
        now exists (String c before), after.
  - intros (before & after & ->).
    induction before as [|c before IH]; cbn [includes append].
    + apply includes_prefix, prefix_append.
    + destruct (String.prefix needle (String c (before ++ needle ++ after)));
        [reflexivity | exact IH].
Qed.

Lemma includes_absent (s needle : string) :
  includes s needle = false <-> ~ contains s needle.
Proof.
  rewrite <- includes_contains. destruct (includes s needle); split; congruence.
Qed.

Lemma classified_content_type (rsp : Response) :
  classified Standalone rsp = true
  <-> (content_type rsp = None
       \/ exists ct, content_type rsp = Some ct /\ ~ contains ct "application/json").
Proof.
  unfold classified. destruct (content_type rsp) as [ct|].
  - split.
    + intros H. right. exists ct. split; [reflexivity|].
      apply includes_absent.
      destruct (includes ct "application/json") eqn:Hinc; [|reflexivity].
      rewrite orb_false_r in H. apply String.eqb_eq in H. subst ct. discriminate.
    + intros [H | (ct' & H & Hno)]; [discriminate|].
      inversion H; subst ct'. apply includes_absent in Hno. rewrite Hno.
      apply orb_true_r.
  - split; auto.
Qed.

Lemma classification_cases (st : Z) (t : string) :
  (contains t "cloudflare" \/ contains t "cf-ray" ->
   classification st t = cloudflare_message)
  /\ (~ contains t "cloudflare" -> ~ contains t "cf-ray" -> contains t "<!DOCTYPE" ->
      classification st t = html_message)
  /\ (~ contains t "cloudflare" -> ~ contains t "cf-ray" -> ~ contains t "<!DOCTYPE" ->
      classification st t = "API returned non-JSON response: " ++ string_of_Z st).
Proof.
  unfold classification. repeat split.
  - intros [H|H]; apply includes_contains in H; rewrite H; [reflexivity|].
    now rewrite orb_true_r.
  - intros H1 H2 H3. apply includes_absent in H1, H2. apply includes_contains in H3.
    now rewrite H1, H2, H3.
  - intros H1 H2 H3. apply includes_absent in H1, H2, H3.
    now rewrite H1, H2, H3.
Qed.

(** X9: in the second revision, a reply to the donation call whose content
    type is absent or does not contain [application/json] is never parsed:
    whatever its body would parse to, [POST /qris] answers 400 with a
    message chosen from the text of the body alone - the Cloudflare message
    when it contains [cloudflare] or [cf-ray], else the HTML message when
    it contains [<!DOCTYPE], else the non-JSON message with the platform's
    status - and with the time of the failure. *)
Theorem unparsed_reply_classified
        (E : Env) (req : Req) (r : Reply) (rq : Request) (rsp : Response) (t : string) :
  run (post_qris Standalone E req) = (Normal r, [rq]) ->
  upstream E rq = Normal rsp ->
  content_type rsp = None
  \/ (exists ct, content_type rsp = Some ct /\ ~ contains ct "application/json") ->
  stream rsp = Normal t ->
  exists m,
    r = {| code := 400;
           sent := VObj [("success", VBool false);
                         ("error", VStr m);
                         ("timestamp", VStr (Date_toISOString E))] |}
    /\ (contains t "cloudflare" \/ contains t "cf-ray" -> m = cloudflare_message)
    /\ (~ contains t "cloudflare" -> ~ contains t "cf-ray" -> contains t "<!DOCTYPE" ->
        m = html_message)
    /\ (~ contains t "cloudflare" -> ~ contains t "cf-ray" -> ~ contains t "<!DOCTYPE" ->
        m = "API returned non-JSON response: " ++ string_of_Z (status rsp)).
Proof.
  intros Hrun Hup Hct Hst.
  apply classified_content_type in Hct.
  exists (classification (status rsp) t).
  split; [|apply classification_cases].
  destruct (handle_inv Standalone PostQris E req r rq Hrun)
    as (result & b & -> & Hflag & Hout).
  simpl in Hout. destruct Hout as [|m Herr]; same_outcome.
  simpl in Hflag. inversion Hflag; subst b.
  unfold classification.
  destruct Herr; same_outcome;
    repeat match goal with
           | H : _ = true |- _ => rewrite H
           | H : _ = false |- _ => rewrite H
           end; reflexivity.
Qed.

Lemma unparsed_reply_classified_witness :
  exists m,
    {| code := 400;
       sent := VObj [("success", VBool false);
                     ("error", VStr html_message);
                     ("timestamp", VStr "2025-01-15T10:30:00.000Z")] |}
    = {| code := 400;
         sent := VObj [("success", VBool false);
                       ("error", VStr m);
                       ("timestamp",
                        VStr (Date_toISOString
                                (sample_env (answers 403 (Some "text/html") html_text))))] |}
    /\ (contains html_text "cloudflare" \/ contains html_text "cf-ray" ->
        m = cloudflare_message)
    /\ (~ contains html_text "cloudflare" -> ~ contains html_text "cf-ray" ->
        contains html_text "<!DOCTYPE" -> m = html_message)
    /\ (~ contains html_text "cloudflare" -> ~ contains html_text "cf-ray" ->
        ~ contains html_text "<!DOCTYPE" ->
        m = "API returned non-JSON response: " ++ string_of_Z 403).
Proof.
  apply (unparsed_reply_classified
           (sample_env (answers 403 (Some "text/html") html_text))
           {| body := VObj [("amount", VNum 10000); ("userId", VStr "abc")];
              params := []; query := [] |}
           _
           {| url := "https://backend.saweria.co/donations/abc";
              method := "POST";
              headers := [("Accept", VStr "application/json, text/plain, */*");
                          ("Accept-Language", VStr "id-ID,id;q=0.9,en;q=0.8");
                          ("Content-Type", VStr "application/json");
                          ("Origin", VStr "https://saweria.co");
                          ("Referer", VStr "https://saweria.co/");
                          ("User-Agent",
                           VStr "Mozilla/5.0 (Windows NT 10.0; Win64; x64) AppleWebKit/537.36 (KHTML, like Gecko) Chrome/120.0.0.0 Safari/537.36")];
              payload := Some (sample_stringify (donation (VNum 10000))) |}
           {| status := 403; content_type := Some "text/html";
              stream := Normal html_text |}
           html_text).
  - reflexivity.
  - reflexivity.
  - right. exists "text/html". split; [reflexivity|].
    apply includes_absent. reflexivity.
  - reflexivity.
Defined.

(** ** What of the platform's reply is looked at *)

(** The text of a value depends on the platform through the texts of its
    numbers only. *)
Lemma ToString_with_reply (f : Response -> Response) (E : Env) :
  forall v, ToString (with_reply f E) v = ToString E v.
Proof.
  fix IH 1. intros v.
  destruct v as [| | b | x | s | items | props]; try reflexivity.
  simpl. induction items as [|x rest IHr]; [reflexivity|].
  rewrite (IH x), IHr. reflexivity.
Qed.

Lemma console_log_with_reply (f : Response -> Response) (E : Env) (holes : list value) :
  console_log (with_reply f E) holes = console_log E holes.
Proof.
  induction holes as [|v rest IH]; simpl; [reflexivity|].
  now rewrite ToString_with_reply, IH.
Qed.

(** X10: apart from [POST /qris] in the second revision, the routes look at
    nothing but the body of the platform's reply: changing its status or
    its content type changes neither the answer nor the call. *)
Theorem reply_depends_on_body_only
        (rev : revision) (ep : endpoint) (E : Env) (req : Req) (f : Response -> Response) :
  (forall r, stream (f r) = stream r) ->
  (rev = Standalone -> ep <> PostQris) ->
  run (handle rev ep (with_reply f E) req) = run (handle rev ep E req).
Proof.
  intros Hf Hne.
  destruct rev, ep; try (exfalso; now apply Hne);
    unfold run, handle, post_qris, get_status, get_balance, respond;
    unfold_client; cbv zeta; simpl;
    repeat (rewrite ?ToString_with_reply, ?console_log_with_reply;
            match goal with
            | |- context [destructure ?b ?k] =>
                destruct (destructure b k); simpl; try reflexivity
            | |- context [ToString E ?v] =>
                destruct (ToString E v); simpl; try reflexivity
            | |- context [if ?c then _ else _] =>
                lazymatch c with
                | context [upstream] => fail
                | _ => destruct c eqn:?; simpl; try reflexivity
                end
            end).
  all: match goal with
       | |- context [upstream ?e ?rq] => destruct (upstream e rq) as [rsp|m]
       end;
    simpl; try reflexivity; rewrite Hf; reflexivity.
Qed.

Lemma reply_depends_on_body_only_witness :
  run (handle Serverless GetBalance
         (with_reply (fun r => {| status := 500; content_type := None; stream := stream r |})
                     (sample_env (answers 200 (Some "application/json") sample_text)))
         {| body := VObj []; params := []; query := [("token", VStr "abc")] |})
  = run (handle Serverless GetBalance
           (sample_env (answers 200 (Some "application/json") sample_text))
           {| body := VObj []; params := []; query := [("token", VStr "abc")] |}).
Proof.
  apply reply_depends_on_body_only.
  - reflexivity.
  - discriminate.
Defined.

(** ** Credentials on outbound calls *)

(** X11: no outbound call of [POST /qris] or [GET /status/:donationId]
    carries an [Authorization] header, whatever the request holds. *)
Theorem token_sent_to_balance_only
        (rev : revision) (E : Env) (req : Req) (rq : Request) :
  In rq (snd (run (post_qris rev E req))) \/ In rq (snd (run (get_status rev E req))) ->
  header "Authorization" (headers rq) = None.
Proof.
  intros [H|H]; revert H;
    destruct rev;
    unfold run, post_qris, get_status, respond; unfold_client; cbv zeta;
    repeat match goal with
           | |- context [destructure ?b ?k] => destruct (destructure b k); cbn [fst snd]
           end;
    repeat match goal with
           | |- context [if ?c then _ else _] =>
               lazymatch c with
               | context [truthy] => destruct c eqn:?
               end
           end;
    text_cases E;
    split_cases;
    intros H; repeat destruct H as [H|H]; subst; try reflexivity; try contradiction.
Qed.

Lemma token_sent_to_balance_only_witness :
  header "Authorization"
         (headers {| url := "https://backend.saweria.co/donations/qris/d1";
                     method := "GET";
                     headers := (V1.browser_headers
                                 ++ [("Content-Type", VStr "application/json")])%list;
                     payload := None |})
  = None.
Proof.
  apply (token_sent_to_balance_only Serverless
           (sample_env (answers 200 (Some "application/json") sample_text))
           {| body := VObj []; params := [("donationId", "d1")];
              query := [("token", VStr "abc")] |}).
  right. left. reflexivity.
Defined.

(** X12: with a truthy [token], the first revision of [GET /balance] makes
    exactly one call, a [GET] to the balance URL, and hands the token as it
    is to the client as [Authorization] header; the second revision turns
    the token into text first: when it has one, the call is the same with
    that text behind [Bearer ] as header, and when it has none, no call is
    made and the answer is 400 with the message of the conversion. *)
Theorem balance_call_carries_token (rev : revision) (E : Env) (req : Req) :
  truthy (field (query req) "token") = true ->
  (rev = Serverless ->
   exists r rq,
     run (get_balance rev E req) = (Normal r, [rq])
     /\ url rq = "https://backend.saweria.co/donations/balance"
     /\ method rq = "GET"
     /\ header "Authorization" (headers rq) = Some (field (query req) "token"))
  /\ (rev = Standalone ->
      forall s, ToString E (field (query req) "token") = Normal s ->
      exists r rq,
        run (get_balance rev E req) = (Normal r, [rq])
        /\ url rq = "https://backend.saweria.co/donations/balance"
        /\ method rq = "GET"
        /\ header "Authorization" (headers rq) = Some (VStr ("Bearer " ++ s)))
  /\ (rev = Standalone ->
      forall m, ToString E (field (query req) "token") = Throw m ->
      run (get_balance rev E req)
      = (Normal {| code := 400;
                   sent := VObj [("success", VBool false); ("error", VStr m)] |},
         [])).
Proof.
  intros Htok. split; [|split].
  - intros ->.
    destruct (get_balance_runs Serverless E req "" Htok)
      as (rq & result & b & Hrun & _ & Hurl & Hmethod & Hauth & _); [discriminate|].
    eexists; exists rq. repeat split; eauto.
  - intros -> s Hs.
    destruct (get_balance_runs Standalone E req s Htok (fun _ => Hs))
      as (rq & result & b & Hrun & _ & Hurl & Hmethod & Hauth & _).
    eexists; exists rq. repeat split; eauto.
  - intros -> m Hm. now apply get_balance_unprinted.
Qed.

Lemma balance_call_carries_token_witness :
  (exists r rq,
      run (get_balance Standalone
             (sample_env (answers 200 (Some "application/json") sample_text))
             {| body := VObj []; params := [];
                query := [("token", VArr [VStr "a"; VStr "b"])] |})
      = (Normal r, [rq])
      /\ url rq = "https://backend.saweria.co/donations/balance"
      /\ method rq = "GET"
      /\ header "Authorization" (headers rq) = Some (VStr "Bearer a,b"))
  /\ run (get_balance Standalone
            (sample_env (answers 200 (Some "application/json") sample_text))
            {| body := VObj []; params := [];
               query := [("token", VObj [("toString", VStr "x")])] |})
     = (Normal {| code := 400;
                  sent := VObj [("success", VBool false);
                                ("error",
                                 VStr "Cannot convert object to primitive value")] |},
        []).
Proof.
  split.
  - apply (proj1 (proj2 (balance_call_carries_token Standalone
             (sample_env (answers 200 (Some "application/json") sample_text))
             {| body := VObj []; params := [];
                query := [("token", VArr [VStr "a"; VStr "b"])] |}
             eq_refl)) eq_refl "a,b").
    reflexivity.
  - apply (proj2 (proj2 (balance_call_carries_token Standalone
             (sample_env (answers 200 (Some "application/json") sample_text))
             {| body := VObj []; params := [];
                query := [("token", VObj [("toString", VStr "x")])] |}
             eq_refl)) eq_refl).
    reflexivity.
Defined.

(** ** The two revisions side by side *)



(** X14: against a platform that answers a donation call by its URL and
    body alone, every 200 of the second revision of [POST /qris] is also
    the answer of the first; and when the platform labels all its replies
    as JSON and the [amount] has a text for the second revision to log,
    every 200 of the first is also the answer of the second. *)
Theorem qris_revisions_agree_on_success (E : Env) (req : Req) (r : Reply) :
  (forall rq rq', url rq = url rq' -> payload rq = payload rq' ->
                  upstream E rq = upstream E rq') ->
  code r = 200 ->
  (fst (run (post_qris Standalone E req)) = Normal r ->
   fst (run (post_qris Serverless E req)) = Normal r)
  /\ ((forall rq rsp, upstream E rq = Normal rsp -> classified Standalone rsp = false) ->
      (forall amount, destructure (body req) "amount" = Normal amount ->
                      printable E amount = true) ->
      fst (run (post_qris Serverless E req)) = Normal r ->
      fst (run (post_qris Standalone E req)) = Normal r).
Proof.
  intros H Hcode. split.
  - unfold run, post_qris, respond; unfold_client; cbv zeta.
    destruct (destructure (body req) "amount") as [a|]; [|discriminate].
    destruct (destructure (body req) "userId") as [u|]; [|discriminate].
    destruct (negb (truthy a) || negb (truthy u)); [auto|].
    destruct (ToString E u) as [id|m] eqn:Hid; [|discriminate].
    rewrite (console_log_cases E _ id _ _ _ Hid).
    destruct (ToString E a) as [s|m] eqn:Hs; simpl;
      [|intros Hr; inversion Hr; subst r; discriminate].
    same_answer H; [|reflexivity|reflexivity].
    split_cases; intros Hr; try exact Hr;
      inversion Hr; subst r; discriminate.
  - intros Hjson Hpr.
    unfold run, post_qris, respond; unfold_client; cbv zeta.
    destruct (destructure (body req) "amount") as [a|] eqn:Ha; [|discriminate].
    destruct (destructure (body req) "userId") as [u|]; [|discriminate].
    destruct (negb (truthy a) || negb (truthy u)); [auto|].
    destruct (ToString E u) as [id|m] eqn:Hid; [|discriminate].
    rewrite (console_log_cases E _ id _ _ _ Hid).
    destruct (printable_text E a (Hpr a eq_refl)) as [s Hs]. rewrite Hs.
    same_answer H; [|reflexivity|reflexivity].
    match goal with |- context [upstream E ?rq] =>
      pose proof (Hjson rq) as Hj; destruct (upstream E rq) as [rsp|m]; simpl end;
      [|intros Hr; inversion Hr; subst r; discriminate].
    specialize (Hj rsp eq_refl). simpl in Hj. rewrite Hj.
    split_cases; intros Hr; try exact Hr;
      inversion Hr; subst r; discriminate.
Qed.

Lemma qris_revisions_agree_on_success_witness :
  fst (run (post_qris Serverless
              (sample_env (answers 200 (Some "application/json; charset=utf-8") sample_text))
              {| body := VObj [("amount", VNum 10000); ("userId", VStr "abc")];
                 params := []; query := [] |}))
  = Normal {| code := 200;
              sent := VObj [("success", VBool true);
                            ("data",
                             VObj [("id", VStr "d1"); ("qr_string", VStr "00020101");
                                   ("amount", VNum 10000); ("currency", VStr "IDR");
                                   ("qr_image",
                                    VStr "data:image/png;base64,00020101")])] |}.
Proof.
  apply (proj1 (qris_revisions_agree_on_success
                  (sample_env (answers 200 (Some "application/json; charset=utf-8")
                                       sample_text))
                  {| body := VObj [("amount", VNum 10000); ("userId", VStr "abc")];
                     params := []; query := [] |}
                  {| code := 200;
                     sent := VObj [("success", VBool true);
                                   ("data",
                                    VObj [("id", VStr "d1");
                                          ("qr_string", VStr "00020101");
                                          ("amount", VNum 10000);
                                          ("currency", VStr "IDR");
                                          ("qr_image",
                                           VStr "data:image/png;base64,00020101")])] |}
                  (fun _ _ _ _ => eq_refl) eq_refl)).
  reflexivity.
Defined.


(** ** The body parser, the middleware, the router and the health check *)






Lemma string_of_Z_nonempty (n : Z) : string_of_Z n <> "".
Proof.
  destruct (string_of_Z_head n) as (c & rest & Heq & _). rewrite Heq. discriminate.
Qed.

(** X17: the health check answers 200 without any call and lists the
    three routes in both revisions; the port it reports in the second
    revision, and writes into its usage examples, is never empty: the
    number 3000 when [PORT] is unset or empty, and otherwise the text of
    [PORT] as it is. *)
Theorem health_check_reports_port (rev : revision) (P : Process) (E : Env) (req : Req) :
  exists r,
    run (get_root rev P E req) = (Normal r, [])
    /\ code r = 200
    /\ get (sent r) "endpoints" = Normal endpoints
    /\ (rev = Standalone ->
        exists info p,
          get (sent r) "server_info" = Normal info
          /\ get info "port" = Normal (port P)
          /\ ToString E (port P) = Normal p
          /\ p <> ""
          /\ get (sent r) "usage_examples" = Normal (usage_examples p)
          /\ (PORT P = None \/ PORT P = Some "" -> port P = VNum 3000)
          /\ (forall s, PORT P = Some s -> s <> "" -> port P = VStr s)).
Proof.
  assert (Hport : exists p, ToString E (port P) = Normal p /\ p <> ""
                            /\ (PORT P = None \/ PORT P = Some "" -> port P = VNum 3000)
                            /\ (forall s, PORT P = Some s -> s <> "" -> port P = VStr s)).
  { unfold port, env_or. destruct (PORT P) as [s|].
    - destruct (s =? "")%string eqn:Hs.
      + apply String.eqb_eq in Hs. subst s. eexists. split; [reflexivity|].
        repeat split.
        * discriminate.
        * intros s' H Hne. inversion H; subst. now elim Hne.
      + apply String.eqb_neq in Hs. exists s. repeat split.
        * exact Hs.
        * intros [H|H]; [discriminate | inversion H; subst; now elim Hs].
        * intros s' H _. now inversion H.
    - eexists. split; [reflexivity|]. repeat split.
      + discriminate.
      + intros s H. discriminate. }
  destruct Hport as (p & Hp & Hne & Hunset & Hset).
  destruct rev.
  - eexists. split; [reflexivity|]. repeat split. discriminate.
  - unfold run, get_root, bind, lift, respond, ret. rewrite Hp.
    eexists. split; [reflexivity|]. repeat split.
    intros _. eexists. exists p. repeat split; auto.
Qed.

(** ** Bodies that are arrays, and the time of a failure *)

Lemma string_of_Z_numeral (n : Z) :
  exists c rest, string_of_Z n = String c rest /\ numeral_head c = true.
Proof.
  unfold string_of_Z.
  destruct (Z.to_int n) as [d|d]; simpl.
  - destruct d; simpl; eexists; eexists; (split; [reflexivity | reflexivity]).
  - eexists; eexists; (split; [reflexivity | reflexivity]).
Qed.

Lemma indexed_lookup_word (c : ascii) (word : string) (l : list value) (tail : Obj) :
  numeral_head c = false ->
  lookup (String c word) (indexed l ++ tail)%list = lookup (String c word) tail.
Proof.
  intros Hc. unfold indexed. generalize 0%nat.
  induction l as [|x l IH]; intros start; simpl; auto.
  destruct (string_of_Z_numeral (Z.of_nat start)) as (d & rest & Heq & Hd).
  unfold string_of_nat at 1. rewrite Heq.
  replace (String d rest =? String c word)%string with false; [apply IH|].
  symmetry. apply String.eqb_neq. intros Habs. inversion Habs. congruence.
Qed.

(** X18: a JSON array posted to [/qris], which the body parser lets
    through, has neither [amount] nor [userId]: it is refused with the 400
    of missing parameters and no call is made. *)
Theorem array_body_rejected (rev : revision) (E : Env) (req : Req) (items : list value) :
  body req = VArr items ->
  run (post_qris rev E req)
  = (Normal {| code := 400;
               sent := VObj [("success", VBool false);
                             ("error", VStr "Amount and userId are required")] |},
     []).
Proof.
  intros Hb.
  apply (post_qris_rejects rev E req VUndefined VUndefined).
  - rewrite Hb. unfold destructure. simpl.
    now rewrite (indexed_lookup_word "a" "mount").
  - rewrite Hb. unfold destructure. simpl.
    now rewrite (indexed_lookup_word "u" "serId").
  - now left.
Qed.

Lemma array_body_rejected_witness :
  run (post_qris Standalone (sample_env (answers 200 None ""))
         {| body := VArr [VNum 10000; VStr "abc"]; params := []; query := [] |})
  = (Normal {| code := 400;
               sent := VObj [("success", VBool false);
                             ("error", VStr "Amount and userId are required")] |},
     []).
Proof.
  apply (array_body_rejected Standalone (sample_env (answers 200 None ""))
           {| body := VArr [VNum 10000; VStr "abc"]; params := []; query := [] |}
           [VNum 10000; VStr "abc"]).
  reflexivity.
Defined.

(** X19: a 400 of [POST /qris] carries the time of the failure under
    [timestamp] exactly when it comes from [generateQRIS] of the second
    revision, that is when [amount] and [userId] are both truthy there,
    whether the failure follows the call or, for an [amount] without a
    text, precedes it; the first revision and the validation error of both
    never carry one. *)
Theorem qris_failure_timestamp
        (rev : revision) (E : Env) (req : Req) (r : Reply) (tr : Trace)
        (amount userId : value) :
  run (post_qris rev E req) = (Normal r, tr) -> code r = 400 ->
  destructure (body req) "amount" = Normal amount ->
  destructure (body req) "userId" = Normal userId ->
  get (sent r) "timestamp"
  = Normal (match rev with
            | Standalone =>
                if truthy amount && truthy userId then VStr (Date_toISOString E)
                else VUndefined
            | Serverless => VUndefined
            end).
Proof.
  intros Hrun Hcode Ha Hu. apply post_qris_run in Hrun.
  inversion Hrun as [ | a u Ha' Hu' Hf
                      | | a u id m Ha' Hu' Hta Htu Hid Hrev Hm
                      | a u id rq result b Ha' Hu' Hta Htu Hid Hpr Hflag Hurl Hme Hpay Hres];
    subst;
    rewrite Ha in Ha'; inversion Ha'; subst a;
    rewrite Hu in Hu'; inversion Hu'; subst u.
  - destruct rev; [reflexivity|].
    destruct Hf as [Hf|Hf]; rewrite Hf; [reflexivity|].
    now rewrite andb_false_r.
  - rewrite Hta, Htu. reflexivity.
  - rewrite Hta, Htu.
    destruct Hres as [| m Herr].
    + simpl in Hflag. inversion Hflag; subst b. discriminate.
    + now destruct rev.
Qed.

Lemma qris_failure_timestamp_witness :
  get (VObj [("success", VBool false);
             ("error", VStr "Cannot convert object to primitive value");
             ("timestamp", VStr "2025-01-15T10:30:00.000Z")]) "timestamp"
  = Normal (if truthy (VObj [("toString", VNum 1)]) && truthy (VStr "abc")
            then VStr (Date_toISOString (sample_env (answers 200 None "")))
            else VUndefined).
Proof.
  apply (qris_failure_timestamp Standalone (sample_env (answers 200 None ""))
           {| body := VObj [("amount", VObj [("toString", VNum 1)]);
                            ("userId", VStr "abc")];
              params := []; query := [] |}
           {| code := 400;
              sent := VObj [("success", VBool false);
                            ("error", VStr "Cannot convert object to primitive value");
                            ("timestamp", VStr "2025-01-15T10:30:00.000Z")] |}
           []).
  - reflexivity.
  - reflexivity.
  - reflexivity.
  - reflexivity.
Defined.

(** ** Values without a text *)

(** X20: the URL of the donation call is built before the [try] of
    [generateQRIS]: when the truthy [userId] of the body has no text (an
    object with a [toString] entry of its own), the conversion throws
    there, nothing catches it, and the handler of [POST /qris] ends by
    throwing, without a call and without having sent an answer.  An [amount] without a text is caught in the second
    revision, which logs it inside the [try]: 400 with the message of the
    conversion and the time, and no call; the first revision never
    converts the [amount] and posts it. *)
Theorem qris_values_without_text
        (rev : revision) (E : Env) (req : Req) (amount userId : value) :
  destructure (body req) "amount" = Normal amount -> truthy amount = true ->
  destructure (body req) "userId" = Normal userId -> truthy userId = true ->
  (forall m, ToString E userId = Throw m ->
             run (post_qris rev E req) = (Throw m, []))
  /\ (forall id m,
        ToString E userId = Normal id -> ToString E amount = Throw m ->
        match rev with
        | Standalone =>
            run (post_qris rev E req)
            = (Normal {| code := 400;
                         sent := VObj [("success", VBool false);
                                       ("error", VStr m);
                                       ("timestamp", VStr (Date_toISOString E))] |},
               [])
        | Serverless =>
            exists r rq,
              run (post_qris rev E req) = (Normal r, [rq])
              /\ url rq = "https://backend.saweria.co/donations/" ++ id
              /\ payload rq = Some (JSON_stringify E (donation amount))
        end).
Proof.
  intros Ha Hta Hu Htu. split.
  - intros m Hm. now apply (post_qris_unanswered rev E req amount userId).
  - intros id m Hid Hm. destruct rev.
    + destruct (post_qris_runs Serverless E req amount userId id Ha Hu Hta Htu Hid)
        as (rq & result & b & Hrun & _ & Hurl & _ & Hpayload & _); [discriminate|].
      eexists; exists rq. repeat split; eauto.
    + now apply (post_qris_unprinted E req amount userId id m).
Qed.

Lemma qris_values_without_text_witness :
  run (post_qris Serverless (sample_env (answers 200 None ""))
         {| body := VObj [("amount", VNum 1); ("userId", VObj [("toString", VNum 1)])];
            params := []; query := [] |})
  = (Throw "Cannot convert object to primitive value", [])
  /\ run (post_qris Standalone (sample_env (answers 200 None ""))
            {| body := VObj [("amount", VObj [("toString", VNum 1)]);
                             ("userId", VStr "abc")];
               params := []; query := [] |})
     = (Normal {| code := 400;
                  sent := VObj [("success", VBool false);
                                ("error", VStr "Cannot convert object to primitive value");
                                ("timestamp", VStr "2025-01-15T10:30:00.000Z")] |},
        []).
Proof.
  split.
  - apply (proj1 (qris_values_without_text Serverless (sample_env (answers 200 None ""))
                    {| body := VObj [("amount", VNum 1);
                                     ("userId", VObj [("toString", VNum 1)])];
                       params := []; query := [] |}
                    (VNum 1) (VObj [("toString", VNum 1)])
                    eq_refl eq_refl eq_refl eq_refl)).
    reflexivity.
  - apply (proj2 (qris_values_without_text Standalone (sample_env (answers 200 None ""))
                    {| body := VObj [("amount", VObj [("toString", VNum 1)]);
                                     ("userId", VStr "abc")];
                       params := []; query := [] |}
                    (VObj [("toString", VNum 1)]) (VStr "abc")
                    eq_refl eq_refl eq_refl eq_refl) "abc").
    + reflexivity.
    + reflexivity.
Defined.
